(** * emex-vin-parser: the VIN decoder, the part search and the HTML
      extraction of [main.py], embedded and verified.

    Python values are modelled as the program uses them: [str] as a list of
    code points, [dict] as a finite map, [None] as an absent option, an
    exception as the [Raise] outcome of a computation.  What a computation does
    to the outside (HTTP calls, log lines, consultations of the HTML
    library) is the trace of events it emits, in order, so that "no call
    was made" is a statement about that trace. *)

From Stdlib Require Import ZArith String Ascii List DecimalString.
From stdpp Require Import base option list gmap strings fin_maps.

Set Warnings "-register-all".
Local Open Scope Z_scope.

(** ** Python strings *)

(** A Python [str] is a sequence of Unicode code points; [len] counts them. *)
Definition codepoint := N.
Abbreviation pystr := (list codepoint).

(** The string literals of the source file are UTF-8; [u] decodes one into
    its code points. *)
Fixpoint utf8_go (s : string) (pending : nat) (acc : N) : pystr :=
  match s with
  | EmptyString => []
  | String c rest =>
      let b := N_of_ascii c in
      match pending with
      | O =>
          if (b <? 128)%N then b :: utf8_go rest 0 0%N
          else if (b <? 224)%N then utf8_go rest 1 (b mod 32)%N
          else if (b <? 240)%N then utf8_go rest 2 (b mod 16)%N
          else utf8_go rest 3 (b mod 8)%N
      | S O => (acc * 64 + b mod 64)%N :: utf8_go rest 0 0%N
      | S p => utf8_go rest p (acc * 64 + b mod 64)%N
      end
  end.

Definition u (s : string) : pystr := utf8_go s 0 0%N.

Arguments u : simpl never.

(** [str(n)] for an [int]. *)
Definition str_int (n : Z) : pystr :=
  u (NilEmpty.string_of_int (Z.to_int n)).

(** Truthiness of a [str] and of an optional [str] ([None] is falsy). *)
Definition truthy_str (s : pystr) : bool :=
  match s with [] => false | _ :: _ => true end.

Definition truthy_opt (o : option pystr) : bool :=
  match o with None => false | Some s => truthy_str s end.

(** ** Exceptions and the computation monad *)

(** An exception caught by [except Exception as e]; [str_exn] is [str(e)]. *)
Inductive Exn := Exception (msg : pystr).

Definition str_exn (e : Exn) : pystr := let 'Exception m := e in m.

Inductive Outcome (A : Type) :=
| Return (a : A)
| Raise (e : Exn).
Arguments Return {A} a.
Arguments Raise {A} e.

(** A computation with a mutable variable of type [L] in scope (a Python
    local, [self], or the module-level [parser]; [unit] when there is none)
    and a trace of events of type [Ev].  The variable and the events
    emitted so far survive an exception, as the effects of Python code do. *)
Definition M (Ev L A : Type) : Type := L → Outcome A * L * list Ev.

Section Monad.
Context {Ev : Type}.

Definition ret {L A} (a : A) : M Ev L A := λ l, (Return a, l, []).

Definition raise {L A} (e : Exn) : M Ev L A := λ l, (Raise e, l, []).

Definition emit {L} (ev : Ev) : M Ev L unit := λ l, (Return tt, l, [ev]).

Definition bind {L A B} (m : M Ev L A) (k : A → M Ev L B) : M Ev L B :=
  λ l, match m l with
       | (Return a, l1, t1) => let '(r, l2, t2) := k a l1 in (r, l2, t1 ++ t2)
       | (Raise e, l1, t1) => (Raise e, l1, t1)
       end.

(** [try: body except Exception as e: handler e]. *)
Definition try_except {L A} (body : M Ev L A) (handler : Exn → M Ev L A) : M Ev L A :=
  λ l, match body l with
       | (Return a, l1, t1) => (Return a, l1, t1)
       | (Raise e, l1, t1) => let '(r, l2, t2) := handler e l1 in (r, l2, t1 ++ t2)
       end.

(** [for x in xs: body x]. *)
Fixpoint for_ {L A} (xs : list A) (body : A → M Ev L unit) : M Ev L unit :=
  match xs with
  | [] => ret tt
  | x :: rest => bind (body x) (λ _, for_ rest body)
  end.

(** [with_local init m] opens the scope of a local variable; [lift] runs a
    computation that has no access to it. *)
Definition lift {L A} (m : M Ev unit A) : M Ev L A :=
  λ l, let '(r, _, t) := m tt in (r, l, t).

Definition get_local {L} : M Ev L L := λ l, (Return l, l, []).

Definition set_local {L} (l : L) : M Ev L unit := λ _, (Return tt, l, []).

Definition with_local {L A} (init : L) (m : M Ev L A) : M Ev unit A :=
  λ _, let '(r, _, t) := m init in (r, tt, t).

(** The result and the trace of a computation without a variable in scope. *)
Definition run {A} (m : M Ev unit A) : Outcome A * list Ev :=
  let '(r, _, t) := m tt in (r, t).
Definition value {A} (m : M Ev unit A) : Outcome A := (run m).1.
Definition trace {A} (m : M Ev unit A) : list Ev := (run m).2.
End Monad.

Declare Scope py_scope.
Delimit Scope py_scope with py.
Notation "x <- m ; k" := (bind m (λ x, k))
  (at level 100, m at next level, right associativity) : py_scope.
Notation "m ;; k" := (bind m (λ _, k))
  (at level 100, right associativity) : py_scope.
Local Open Scope py_scope.

(** ** Values, records and envelopes *)

(** [VehicleInfo]: the dict [vehicle_info]; its keys are what
    [item.get('Variable')] returns, a [str] or [None]. *)
Abbreviation VehicleInfo := (gmap (option pystr) pystr).

(** [PartListing]: the dict [part_info], built key by key. *)
Abbreviation PartListing := (gmap string pystr).

(** [Offer]: the dict [offer_data]; every key is present, [None] until set. *)
Abbreviation Offer := (gmap string (option pystr)).

(** The values stored in the dicts the methods return and in a JSON body. *)
Inductive pyval :=
| VNone
| VBool (b : bool)
| VInt (n : Z)
| VStr (s : pystr)
| VInfo (m : VehicleInfo)
| VParts (l : list PartListing)
| VOffers (l : list Offer).

Abbreviation Envelope := (gmap string pyval).

Definition truthy (v : pyval) : bool :=
  match v with
  | VNone => false
  | VBool b => b
  | VInt n => negb (n =? 0)
  | VStr s => truthy_str s
  | VInfo m => negb (bool_decide (m = ∅))
  | VParts l => match l with [] => false | _ => true end
  | VOffers l => match l with [] => false | _ => true end
  end.

(** [d.get(k)] on a dict of values: [None] when the key is absent. *)
Definition dict_get (d : Envelope) (k : string) : pyval := default VNone (d !! k).

(** ** The outside world *)

(** A selector of the HTML library: [find_all(name, class_=c)],
    [find(class_=c)], [find(name, {attr: value})]. *)
Record Selector := {
  sel_name : option pystr;
  sel_class : option pystr;
  sel_attrs : list (pystr * pystr)
}.

Global Instance Selector_eq_dec : EqDecision Selector.
Proof. solve_decision. Defined.

Definition tag_class (name cls : string) : Selector :=
  {| sel_name := Some (u name); sel_class := Some (u cls); sel_attrs := [] |}.

Definition by_class (cls : string) : Selector :=
  {| sel_name := None; sel_class := Some (u cls); sel_attrs := [] |}.

Definition tag_attr (name attr val : string) : Selector :=
  {| sel_name := Some (u name); sel_class := None; sel_attrs := [(u attr, u val)] |}.

Arguments tag_class : simpl never.
Arguments by_class : simpl never.
Arguments tag_attr : simpl never.

(** A [requests.Session] with its default headers. *)
Record Session := { headers : list (string * pystr) }.

(** An outbound HTTP call, as issued. *)
Inductive Call :=
| RequestsGet (url : pystr) (timeout : Z)
| SessionGet (s : Session) (url : pystr) (timeout : Z)
| SessionPost (s : Session) (url : pystr) (data : list (string * pyval)) (timeout : Z).

(** The decode payload: [data.get('Results', [])] and, per item,
    [item.get('Variable')] and [item.get('Value')]; [None] is an absent key
    or a JSON null. *)
Record Item := { Variable_ : option pystr; Value_ : option pystr }.
Record Payload := { Results : option (list Item) }.

(** A response: [status_code], [text], and what [json()] returns or raises. *)
Record Response := {
  status_code : Z;
  text : pystr;
  json : Outcome Payload
}.

Inductive Level := INFO | WARNING | ERROR.

(** A consultation of the HTML library. *)
Inductive Probe :=
| FindAll (sel : Selector)
| Find (sel : Selector)
| GetText.

(** What the process does to the outside, in the order done: an HTTP call,
    a log line, a consultation of the HTML library, the construction of a
    [requests.Session]. *)
Inductive Event :=
| Called (c : Call)
| Logged (l : Level) (msg : pystr)
| Probed (p : Probe)
| SessionOpened.

Abbreviation Py := (M Event).

(** The collaborators the program consumes: the HTML library over its node
    type (a [BeautifulSoup] object is a [Tag]), the network, the
    environment variables and the clock.  Searching and reading a node may
    raise; building the tree from a text does not. *)
Record Env := {
  Node : Type;
  BeautifulSoup : pystr → Node;
  lib_find_all : Node → Selector → Outcome (list Node);
  lib_find : Node → Selector → Outcome (option Node);
  lib_get_text : Node → Outcome pystr;
  http : Call → Outcome Response;
  getenv : string → option pystr;
  isoformat_now : pystr
}.

(** The parser object. *)
Record EmexVINParser := {
  base_url : pystr;
  session : Session;
  username : pyval;
  password : pyval;
  is_authenticated : bool
}.

(** ** The program *)

Section Program.
Context (E : Env).

(** *** Primitive effects *)

(** An effect emits its event, then returns or raises what the collaborator
    answers. *)
Definition effect {L A} (ev : Event) (answer : Outcome A) : Py L A :=
  λ l, (answer, l, [ev]).

Definition requests_get (url : pystr) (timeout : Z) : Py unit Response :=
  effect (Called (RequestsGet url timeout)) (http E (RequestsGet url timeout)).

Definition session_get (s : Session) (url : pystr) (timeout : Z) : Py unit Response :=
  effect (Called (SessionGet s url timeout)) (http E (SessionGet s url timeout)).

Definition session_post (s : Session) (url : pystr) (data : list (string * pyval))
    (timeout : Z) : Py unit Response :=
  effect (Called (SessionPost s url data timeout))
         (http E (SessionPost s url data timeout)).

(** A call that stays inside the process: it returns or raises, and emits
    nothing. *)
Definition answer {L A} (r : Outcome A) : Py L A := λ l, (r, l, []).

(** [r.json()]. *)
Definition response_json (r : Response) : Py unit Payload := answer (json r).

Definition logger (l : Level) (msg : pystr) : Py unit unit := emit (Logged l msg).

Definition find_all (n : Node E) (sel : Selector) : Py unit (list (Node E)) :=
  effect (Probed (FindAll sel)) (lib_find_all E n sel).

Definition find (n : Node E) (sel : Selector) : Py unit (option (Node E)) :=
  effect (Probed (Find sel)) (lib_find E n sel).

(** [n.get_text(strip=True)]. *)
Definition get_text (n : Node E) : Py unit pystr :=
  effect (Probed GetText) (lib_get_text E n).

(** Python's [a or b]: [b] is evaluated only when [a] is falsy.  A result
    list is falsy when empty; a found [Tag] is always truthy, so only
    [None] is falsy among the results of [find]. *)
Definition or_list {A} (a b : Py unit (list A)) : Py unit (list A) :=
  x <- a; match x with [] => b | _ :: _ => ret x end.

Definition or_node {A} (a b : Py unit (option A)) : Py unit (option A) :=
  x <- a; match x with None => b | Some _ => ret x end.

(** *** [EmexVINParser._extract_part_info] *)

(** [part_info[key] = node.get_text(strip=True)], under [if node:]. *)
Definition set_text (key : string) (node : option (Node E))
    : Py PartListing unit :=
  match node with
  | None => ret tt
  | Some n =>
      t <- lift (get_text n);
      part_info <- get_local;
      set_local (<[key := t]> part_info)
  end.

(** The body of the [try] of [_extract_part_info]. *)
Definition read_part_info (element : Node E) : Py unit (option PartListing) :=
  with_local (∅ : PartListing) (
    article <- lift (or_node (find element (by_class "article"))
                             (find element (tag_attr "td" "data-title" "Артикул")));
    set_text "article" article;;
    name <- lift (or_node (find element (by_class "name"))
                          (find element (by_class "part-name")));
    set_text "name" name;;
    price <- lift (or_node (find element (by_class "price"))
                           (find element (tag_attr "td" "data-title" "Цена")));
    set_text "price" price;;
    availability <- lift (or_node (find element (by_class "availability"))
                                  (find element (tag_attr "td" "data-title" "Наличие")));
    set_text "availability" availability;;
    manufacturer <- lift (or_node (find element (by_class "manufacturer"))
                                  (find element (by_class "brand")));
    set_text "manufacturer" manufacturer;;
    delivery <- lift (or_node (find element (by_class "delivery"))
                              (find element (tag_attr "td" "data-title" "Срок")));
    set_text "delivery_time" delivery;;
    part_info <- get_local;
    ret (if bool_decide (part_info = ∅) then None else Some part_info)).

Definition _extract_part_info (element : Node E) : Py unit (option PartListing) :=
  try_except (read_part_info element)
    (λ e,
       logger ERROR (u "Ошибка при извлечении информации о запчасти: " ++ str_exn e);;
       ret None).

(** *** [EmexVINParser._parse_parts_from_html] *)

(** The candidates of the listings mode, the local [part_items].  ([a or b
    or c] evaluates [a], then [b] if [a] is falsy, then [c] if [b] is.) *)
Definition part_items (soup : Node E) : Py unit (list (Node E)) :=
  or_list (find_all soup (tag_class "div" "part-item"))
    (or_list (find_all soup (tag_class "tr" "search-row"))
             (find_all soup (tag_attr "div" "data-type" "part"))).

(** The body of [for item in part_items]; the local is the list [parts].
    [if part_data:] holds for a dict that is not empty. *)
Definition keep_part (item : Node E) : Py (list PartListing) unit :=
  part_data <- lift (_extract_part_info item);
  match part_data with
  | Some d =>
      if bool_decide (d = ∅) then ret tt
      else parts <- get_local; set_local (parts ++ [d])
  | None => ret tt
  end.

Definition _parse_parts_from_html (soup : Node E) : Py unit (list PartListing) :=
  with_local ([] : list PartListing) (
    try_except
      (items <- lift (part_items soup);
       for_ items keep_part;;
       parts <- get_local;
       match parts with
       | [] => lift (logger INFO (u "Запчасти не найдены или структура сайта изменилась"))
       | _ :: _ => ret tt
       end)
      (λ e, lift (logger ERROR (u "Ошибка при парсинге HTML: " ++ str_exn e)));;
    get_local).

(** *** [EmexVINParser._parse_part_details] *)

(** The candidates of the offers mode, the local [offers]. *)
Definition offers (soup : Node E) : Py unit (list (Node E)) :=
  or_list (find_all soup (tag_class "div" "offer-item"))
          (find_all soup (tag_class "tr" "offer-row")).

(** [offer_data[key] = node.get_text(strip=True)], under [if node:]. *)
Definition set_offer_text (key : string) (node : option (Node E))
    : Py Offer unit :=
  match node with
  | None => ret tt
  | Some n =>
      t <- lift (get_text n);
      offer_data <- get_local;
      set_local (<[key := Some t]> offer_data)
  end.

(** [any(offer_data.values())]. *)
Definition any_values (offer_data : Offer) : bool :=
  existsb truthy_opt (map_to_list offer_data).*2.

Definition offer_data0 : Offer :=
  {[ "price" := None; "availability" := None;
     "warehouse" := None; "delivery_time" := None ]}.

(** The first part of the body of [for offer in offers]: the [offer_data]
    built for one node. *)
Definition offer_record (offer : Node E) : Py unit Offer :=
  with_local offer_data0 (
    price <- lift (find offer (by_class "price"));
    set_offer_text "price" price;;
    availability <- lift (find offer (by_class "availability"));
    set_offer_text "availability" availability;;
    warehouse <- lift (find offer (by_class "warehouse"));
    set_offer_text "warehouse" warehouse;;
    delivery <- lift (find offer (by_class "delivery"));
    set_offer_text "delivery_time" delivery;;
    get_local).

(** The local [details] is [{'article': article, 'offers': [...]}]; only
    its list is mutated, so the list is the local variable. *)
Definition details_dict (article : pystr) (offer_list : list Offer) : Envelope :=
  {[ "article" := VStr article; "offers" := VOffers offer_list ]}.

(** The body of [for offer in offers]; the local is the list
    [details['offers']]. *)
Definition keep_offer (offer : Node E) : Py (list Offer) unit :=
  offer_data <- lift (offer_record offer);
  if any_values offer_data
  then acc <- get_local; set_local (acc ++ [offer_data])
  else ret tt.

Definition _parse_part_details (soup : Node E) (article : pystr) : Py unit Envelope :=
  with_local ([] : list Offer) (
    try_except
      (items <- lift (offers soup);
       for_ items keep_offer)
      (λ e, lift (logger ERROR (u "Ошибка при парсинге деталей: " ++ str_exn e)));;
    acc <- get_local;
    ret (details_dict article acc)).

(** *** [EmexVINParser.get_part_details] *)

Definition article_url (self : EmexVINParser) (article : pystr) : pystr :=
  base_url self ++ u "/search/articles/" ++ article.

Definition get_part_details (self : EmexVINParser) (article : pystr)
    : Py unit Envelope :=
  try_except
    (response <- session_get (session self) (article_url self article) 30;
     if negb (status_code response =? 200) then
       ret {[ "error" := VStr (u "Ошибка при запросе: " ++ str_int (status_code response));
              "article" := VStr article ]}
     else
       let soup := BeautifulSoup E (text response) in
       details <- _parse_part_details soup article;
       ret details)
    (λ e,
       logger ERROR (u "Ошибка при получении деталей запчасти: " ++ str_exn e);;
       ret {[ "error" := VStr (str_exn e); "article" := VStr article ]}).

(** *** [EmexVINParser.decode_vin] *)

(** The loop over [results] that fills [vehicle_info]. *)
Definition fill_vehicle_info (results : list Item) : VehicleInfo :=
  foldl (λ vehicle_info item,
           match Value_ item with
           | Some v => if truthy_str v then <[Variable_ item := v]> vehicle_info
                       else vehicle_info
           | None => vehicle_info
           end) ∅ results.

Definition MSG_VIN_FORMAT : pystr :=
  u "Неверный формат VIN кода. Должно быть 17 символов.".

(** The local [nhtsa_url]. *)
Definition nhtsa_url (vin_code : pystr) : pystr :=
  u "https://vpic.nhtsa.dot.gov/api/vehicles/DecodeVin/" ++ vin_code ++ u "?format=json".

Definition decode_vin (self : EmexVINParser) (vin_code : pystr) : Py unit Envelope :=
  try_except
    (if negb (truthy_str vin_code) || negb (Nat.eqb (length vin_code) 17) then
       ret {[ "error" := VStr MSG_VIN_FORMAT; "vin" := VStr vin_code ]}
     else
       response <- requests_get (nhtsa_url vin_code) 10;
       if status_code response =? 200 then
         data <- response_json response;
         let results := default [] (Results data) in
         let vehicle_info := fill_vehicle_info results in
         ret {[ "vin" := VStr vin_code; "vehicle_info" := VInfo vehicle_info;
                "decoded" := VBool true ]}
       else
         ret {[ "error" := VStr (u "Не удалось декодировать VIN");
                "vin" := VStr vin_code ]})
    (λ e,
       logger ERROR (u "Ошибка при декодировании VIN: " ++ str_exn e);;
       ret {[ "error" := VStr (str_exn e); "vin" := VStr vin_code ]}).

(** *** [EmexVINParser.search_parts_by_vin] *)

(** The local [search_url], once the optional query is appended. *)
Definition search_url (self : EmexVINParser) (vin_code : pystr)
    (part_name : option pystr) : pystr :=
  let search_url := base_url self ++ u "/search/vin/" ++ vin_code in
  match part_name with
  | Some q => if truthy_str q then search_url ++ u "?query=" ++ q else search_url
  | None => search_url
  end.

Definition search_parts_by_vin (self : EmexVINParser) (vin_code : pystr)
    (part_name : option pystr) : Py unit Envelope :=
  try_except
    (vin_info <- decode_vin self vin_code;
     if bool_decide (is_Some (vin_info !! "error")) then ret vin_info
     else
       response <- session_get (session self) (search_url self vin_code part_name) 30;
       if negb (status_code response =? 200) then
         ret {[ "error" := VStr (u "Ошибка при запросе к emex.ru: "
                                   ++ str_int (status_code response));
                "vin" := VStr vin_code ]}
       else
         let soup := BeautifulSoup E (text response) in
         parts <- _parse_parts_from_html soup;
         ret {[ "vin" := VStr vin_code;
                "vehicle_info" := default (VInfo ∅) (vin_info !! "vehicle_info");
                "parts" := VParts parts;
                "total_parts" := VInt (Z.of_nat (length parts));
                "timestamp" := VStr (isoformat_now E) ]})
    (λ e,
       logger ERROR (u "Ошибка при поиске запчастей: " ++ str_exn e);;
       ret {[ "error" := VStr (str_exn e); "vin" := VStr vin_code ]}).

(** *** [EmexVINParser.__init__] and [EmexVINParser.authenticate] *)

Definition getenv_val (name : string) : pyval :=
  match getenv E name with Some s => VStr s | None => VNone end.

Definition browser_headers : list (string * pystr) :=
  [ ("User-Agent", u "Mozilla/5.0 (Windows NT 10.0; Win64; x64) AppleWebKit/537.36");
    ("Accept", u "text/html,application/xhtml+xml,application/xml;q=0.9,*/*;q=0.8");
    ("Accept-Language", u "ru-RU,ru;q=0.9,en;q=0.8");
    ("Accept-Encoding", u "gzip, deflate, br");
    ("Connection", u "keep-alive") ].

Definition __init__ (username_arg password_arg : pyval) : Py unit EmexVINParser :=
  emit SessionOpened;;
  ret {| base_url := u "https://emex.ru";
         session := {| headers := browser_headers |};
         username := if truthy username_arg then username_arg
                     else getenv_val "EMEX_USERNAME";
         password := if truthy password_arg then password_arg
                     else getenv_val "EMEX_PASSWORD";
         is_authenticated := false |}.

Definition set_authenticated (self : EmexVINParser) : EmexVINParser :=
  {| base_url := base_url self; session := session self;
     username := username self; password := password self;
     is_authenticated := true |}.

(** The method mutates [self], which is the local of the computation. *)
Definition authenticate : Py EmexVINParser bool :=
  self <- get_local;
  if negb (truthy (username self)) || negb (truthy (password self)) then
    lift (logger WARNING
            (u "Учетные данные не предоставлены. Работа в режиме без авторизации."));;
    ret false
  else
    try_except
      (let login_url := base_url self ++ u "/auth/login" in
       let login_data := [("login", username self); ("password", password self)] in
       response <- lift (session_post (session self) login_url login_data 30);
       if status_code response =? 200 then
         set_local (set_authenticated self);;
         lift (logger INFO (u "Успешная аутентификация на emex.ru"));;
         ret true
       else
         lift (logger ERROR (u "Ошибка аутентификации: " ++ str_int (status_code response)));;
         ret false)
      (λ e,
         lift (logger ERROR (u "Ошибка при аутентификации: " ++ str_exn e));;
         ret false).

(** *** The Flask endpoint [authenticate] *)

(** What [request.get_json()] gives: a JSON object, another JSON value
    (of the named Python type, on which [.get] raises), or an exception. *)
Inductive Body :=
| BObject (d : Envelope)
| BOther (type_name : pystr).

Definition data_get (data : Body) (k : string) : Py EmexVINParser pyval :=
  match data with
  | BObject d => ret (dict_get d k)
  | BOther t => raise (Exception (u "'" ++ t ++ u "' object has no attribute 'get'"))
  end.

(** The state of the endpoint is the world and the module-level [parser];
    the result is the JSON body and the HTTP status. *)
Definition authenticate_endpoint (get_json : Outcome Body)
    : Py EmexVINParser (Envelope * Z) :=
  try_except
    (data <- answer get_json;
     username <- data_get data "username";
     password <- data_get data "password";
     if negb (truthy username) || negb (truthy password) then
       ret ({[ "error" := VStr (u "Username и password обязательны") ]}, 400)
     else
       new_parser <- lift (__init__ username password);
       set_local new_parser;;
       success <- authenticate;
       ret ({[ "authenticated" := VBool success;
               "message" := VStr (if success then u "Успешная аутентификация"
                                  else u "Ошибка аутентификации") ]}, 200))
    (λ e, ret ({[ "error" := VStr (str_exn e) ]}, 500)).
End Program.

(** ** Modes, strategies and field tables *)

(** The two extraction modes and, per mode, the selectors of the source in
    the order the [or] chain names them. *)
Inductive Mode := Listings | Offers.

Definition strategies (mode : Mode) : list Selector :=
  match mode with
  | Listings => [ tag_class "div" "part-item"; tag_class "tr" "search-row";
                  tag_attr "div" "data-type" "part" ]
  | Offers => [ tag_class "div" "offer-item"; tag_class "tr" "offer-row" ]
  end.

Definition candidates (E : Env) (mode : Mode) (soup : Node E) : Py unit (list (Node E)) :=
  match mode with
  | Listings => part_items E soup
  | Offers => offers E soup
  end.

(** An attribute-based selector constrains an attribute and no class. *)
Definition attribute_based (sel : Selector) : bool :=
  match sel_class sel, sel_attrs sel with
  | None, _ :: _ => true
  | _, _ => false
  end.

(** The event is the fetch of a page of the shop ([self.session.get]). *)
Definition page_fetch (ev : Event) : bool :=
  match ev with
  | Called (SessionGet _ _ _) => true
  | _ => false
  end.

(** The fields of a listing: key, first selector, fallback selector. *)
Definition part_fields : list (string * Selector * Selector) :=
  [ ("article", by_class "article", tag_attr "td" "data-title" "Артикул");
    ("name", by_class "name", by_class "part-name");
    ("price", by_class "price", tag_attr "td" "data-title" "Цена");
    ("availability", by_class "availability", tag_attr "td" "data-title" "Наличие");
    ("manufacturer", by_class "manufacturer", by_class "brand");
    ("delivery_time", by_class "delivery", tag_attr "td" "data-title" "Срок") ].

(** The fields of an offer: key and selector. *)
Definition offer_fields : list (string * Selector) :=
  [ ("price", by_class "price"); ("availability", by_class "availability");
    ("warehouse", by_class "warehouse"); ("delivery_time", by_class "delivery") ].

(** What [element.find(s1) or element.find(s2)] evaluates to. *)
Definition found (E : Env) (element : Node E) (s1 s2 : Selector)
    : Outcome (option (Node E)) :=
  match lib_find E element s1 with
  | Return None => lib_find E element s2
  | r => r
  end.

(** The record the loop of [_parse_parts_from_html] appends for a candidate
    node, if any: what [_extract_part_info] returns, when it is truthy. *)
Definition part_of (E : Env) (item : Node E) : option PartListing :=
  match value (_extract_part_info E item) with
  | Return (Some d) => if bool_decide (d = ∅) then None else Some d
  | _ => None
  end.

(** The record the loop of [_parse_part_details] appends for a candidate
    node, if any: the [offer_data] built for it, when it passes
    [any(offer_data.values())]. *)
Definition offer_of (E : Env) (item : Node E) : option Offer :=
  match value (offer_record E item) with
  | Return d => if any_values d then Some d else None
  | Raise _ => None
  end.

(** Building the offer of the node raises nothing. *)
Definition well_formed (E : Env) (item : Node E) : Prop :=
  ∃ d, value (offer_record E item) = Return d.

(** A mode tries three strategies, the last one attribute-based: on a page
    where nothing matches, three selectors are consulted, the third by
    attribute. *)
Definition three_strategies_tried (E : Env) (mode : Mode) : Prop :=
  ∀ soup : Node E,
    (∀ s, lib_find_all E soup s = Return []) →
    ∃ s1 s2 s3,
      attribute_based s3 = true ∧
      trace (candidates E mode soup)
      = [Probed (FindAll s1); Probed (FindAll s2); Probed (FindAll s3)].

(** ** A document model for examples *)

(** A small instance of the collaborators, used to run the program on
    concrete pages: a tree of tags and strings searched in document order.
    A tag carrying the attribute [x-fault] stands for a malformed node:
    searching it or reading its text raises. *)
Module Fixture.

Inductive Html :=
| Text (s : pystr)
| Tag (name : pystr) (classes : list pystr) (attrs : list (pystr * pystr))
      (kids : list Html).

Fixpoint descendants (n : Html) : list Html :=
  match n with
  | Text _ => []
  | Tag _ _ _ kids => flat_map (λ k, k :: descendants k) kids
  end.

Definition selects (sel : Selector) (n : Html) : bool :=
  match n with
  | Text _ => false
  | Tag name classes attrs _ =>
      match sel_name sel with Some t => bool_decide (t = name) | None => true end
      && match sel_class sel with Some c => bool_decide (c ∈ classes) | None => true end
      && forallb (λ kv, bool_decide (kv ∈ attrs)) (sel_attrs sel)
  end.

Definition fault (n : Html) : option Exn :=
  match n with
  | Text _ => None
  | Tag _ _ attrs _ =>
      match List.find (λ kv, bool_decide (kv.1 = u "x-fault")) attrs with
      | Some kv => Some (Exception kv.2)
      | None => None
      end
  end.

Definition guarded {A} (n : Html) (a : A) : Outcome A :=
  match fault n with Some e => Raise e | None => Return a end.

Definition is_space (c : codepoint) : bool :=
  bool_decide (c ∈ [32; 9; 10; 11; 12; 13]%N).

Fixpoint lstrip (s : pystr) : pystr :=
  match s with
  | c :: rest => if is_space c then lstrip rest else s
  | [] => []
  end.

Definition strip (s : pystr) : pystr := rev (lstrip (rev (lstrip s))).

Definition strings (n : Html) : list pystr :=
  flat_map (λ k, match k with Text s => [s] | Tag _ _ _ _ => [] end) (descendants n).

Definition fx_find_all (n : Html) (sel : Selector) : Outcome (list Html) :=
  guarded n (List.filter (selects sel) (descendants n)).

Definition fx_find (n : Html) (sel : Selector) : Outcome (option Html) :=
  guarded n (head (List.filter (selects sel) (descendants n))).

Definition fx_get_text (n : Html) : Outcome pystr :=
  guarded n (concat (List.filter truthy_str (map strip (strings n)))).

(** Shorthands for pages. *)
Definition document (kids : list Html) : Html := Tag (u "[document]") [] [] kids.
Definition div (cls : string) (kids : list Html) : Html := Tag (u "div") [u cls] [] kids.
Definition span (cls : string) (txt : string) : Html :=
  Tag (u "span") [u cls] [] [Text (u txt)].
Definition faulty_div (cls : string) (kids : list Html) : Html :=
  Tag (u "div") [u cls] [(u "x-fault", u "malformed node")] kids.

(** The pages, by the text the server sends. *)

(** A page with no tag at all. *)
Definition blank_page : Html := document [].

(** A strategy-1 listing and a decoy only strategy 3 would match. *)
Definition decoy_page : Html :=
  document [ div "part-item" [span "article" "A-1"];
             Tag (u "div") [] [(u "data-type", u "part")] [span "article" "DECOY"] ].

(** A listing whose only field element has no text, and one with no field
    element. *)
Definition hollow_page : Html :=
  document [ div "part-item" [span "article" EmptyString];
             div "part-item" [span "unrelated" "x"] ].

(** A listing with the price alone. *)
Definition price_only_page : Html :=
  document [ div "part-item" [span "price" " 100 "] ].

(** Offers: a price alone; nothing; a price element without text; a price
    next to an availability element without text. *)
Definition offers_page : Html :=
  document [ div "offer-item" [span "price" "100"];
             div "offer-item" [span "unrelated" "x"];
             div "offer-item" [span "price" EmptyString];
             div "offer-item" [span "price" "7"; span "availability" " "] ].

(** An offer marked only by an attribute. *)
Definition attribute_offer_page : Html :=
  document [ Tag (u "div") [] [(u "data-type", u "offer")] [span "price" "100"] ].

(** Three candidates of either mode, the second malformed. *)
Definition broken_listings_page : Html :=
  document [ div "part-item" [span "article" "A-1"];
             faulty_div "part-item" [span "article" "A-2"];
             div "part-item" [span "article" "A-3"] ].

Definition broken_offers_page : Html :=
  document [ div "offer-item" [span "price" "1"];
             faulty_div "offer-item" [span "price" "2"];
             div "offer-item" [span "price" "3"] ].

Definition pages : list (pystr * Html) :=
  [ (u "blank", blank_page); (u "decoy", decoy_page); (u "hollow", hollow_page);
    (u "price-only", price_only_page); (u "offers", offers_page);
    (u "attribute-offer", attribute_offer_page);
    (u "broken-listings", broken_listings_page);
    (u "broken-offers", broken_offers_page) ].

Definition parse (txt : pystr) : Html :=
  match List.find (λ p, bool_decide (p.1 = txt)) pages with
  | Some p => p.2
  | None => blank_page
  end.

(** The collaborators over a given network. *)
Definition env (net : Call → Outcome Response) : Env :=
  {| Node := Html;
     BeautifulSoup := parse;
     lib_find_all := fx_find_all;
     lib_find := fx_find;
     lib_get_text := fx_get_text;
     http := net;
     getenv := λ _, None;
     isoformat_now := u "2024-01-01T00:00:00" |}.

(** A network that is down, and one that answers every call alike. *)
Definition offline : Call → Outcome Response :=
  λ _, Raise (Exception (u "connection refused")).

Definition answering (r : Response) : Call → Outcome Response := λ _, Return r.

Definition page_response (status : Z) (txt : string) : Response :=
  {| status_code := status; text := u txt;
     json := Raise (Exception (u "Expecting value")) |}.

Definition json_response (status : Z) (results : list Item) : Response :=
  {| status_code := status; text := [];
     json := Return {| Results := Some results |} |}.

Definition pair (variable value : string) : Item :=
  {| Variable_ := Some (u variable); Value_ := Some (u value) |}.

(** The decoder answers [decode]; the shop answers [page]. *)
Definition serving (decode page : Response) : Call → Outcome Response :=
  λ c, match c with
       | RequestsGet _ _ => Return decode
       | _ => Return page
       end.

Definition a_parser : EmexVINParser :=
  {| base_url := u "https://emex.ru"; session := {| headers := [] |};
     username := VNone; password := VNone; is_authenticated := false |}.

Definition a_vin : pystr := u "1HGCM82633A004352".
End Fixture.

(** ** The routes that call the parser *)

(** The Flask routes [decode_vin], [search_parts] and [part_details] (the
    suffix tells them from the methods they call).  Each reads the
    module-level [parser], which is the variable in scope, and answers
    [jsonify(result)] with status 200, or status 500 when an exception
    reaches it.  [upper] is [str.upper]. *)
Section Routes.
Context (E : Env) (upper : pystr → pystr).

Definition decode_vin_endpoint (vin : pystr) : Py EmexVINParser (Envelope * Z) :=
  try_except
    (parser <- get_local;
     result <- lift (decode_vin E parser (upper vin));
     ret (result, 200))
    (λ e, ret ({[ "error" := VStr (str_exn e) ]}, 500)).


End Routes.

(** ** Reading traces and records *)

(** The HTTP calls of a trace, in order. *)
Definition calls_of (t : list Event) : list Call :=
  omap (λ ev, match ev with Called c => Some c | _ => None end) t.

(** The event touches neither the network nor a session: it is a log line
    or a consultation of the HTML library. *)
Definition local_event (ev : Event) : bool :=
  match ev with
  | Logged _ _ | Probed _ => true
  | Called _ | SessionOpened => false
  end.

(** Every event a computation emits satisfies [P], whatever its variable. *)
Definition emits {L A} (P : Event → Prop) (m : Py L A) : Prop :=
  ∀ l, Forall P (m l).2.

(** What a field block reads: the text of the element found, [None] when no
    element is found, or the exception of the search or of the reading. *)
Definition text_of (E : Env) (node : Outcome (option (Node E))) : Outcome (option pystr) :=
  match node with
  | Return (Some n) =>
      match lib_get_text E n with
      | Return t => Return (Some t)
      | Raise e => Raise e
      end
  | Return None => Return None
  | Raise e => Raise e
  end.

(** The readings of the fields of a listing and of an offer, in the order
    of the source. *)
Definition part_readings (E : Env) (item : Node E)
    : list (string * Outcome (option pystr)) :=
  map (λ '(k, s1, s2), (k, text_of E (found E item s1 s2))) part_fields.

Definition offer_readings (E : Env) (item : Node E)
    : list (string * Outcome (option pystr)) :=
  map (λ '(k, s), (k, text_of E (lib_find E item s))) offer_fields.

(** Storing the readings one after the other, until one raises. *)
Fixpoint store {V} (inj : pystr → V) (readings : list (string * Outcome (option pystr)))
    (acc : gmap string V) : Outcome (gmap string V) :=
  match readings with
  | [] => Return acc
  | (k, Return (Some t)) :: rest => store inj rest (<[k := inj t]> acc)
  | (k, Return None) :: rest => store inj rest acc
  | (k, Raise e) :: rest => Raise e
  end.

(** The request [authenticate] posts. *)
Definition login_call (self : EmexVINParser) : Call :=
  SessionPost (session self) (base_url self ++ u "/auth/login")
    [("login", username self); ("password", password self)] 30.

(** ** More networks for examples *)

Module Scenario.

(** The decoder answers [decode]; the shop cannot be reached. *)
Definition shop_down (decode : Response) : Call → Outcome Response :=
  λ c, match c with
       | RequestsGet _ _ => Return decode
       | _ => Raise (Exception (u "connection refused"))
       end.

(** A body that is not JSON, whatever the status. *)
Definition not_json (status : Z) : Response := Fixture.page_response status "blank".

Definition toyota : Response :=
  Fixture.json_response 200 [Fixture.pair "Make" "Toyota"].

Definition credentials : Envelope :=
  {[ "username" := VStr (u "user"); "password" := VStr (u "secret") ]}.

(** A document whose root cannot be searched. *)
Definition unsearchable_page : Fixture.Html :=
  Fixture.Tag (u "[document]") [] [(u "x-fault", u "recursion limit")]
      [Fixture.div "part-item" [Fixture.span "article" "A-1"]].

Definition upper_ascii (s : pystr) : pystr :=
  map (λ c, if ((97 <=? c) && (c <=? 122))%N then (c - 32)%N else c) s.
End Scenario.

(** ** Results *)

(** *** The model on small inputs *)

Example u_decodes_utf8 : u "Срок" = [1057; 1088; 1086; 1082]%N.
Proof. reflexivity. Qed.

Example str_int_examples :
  str_int 404 = u "404" ∧ str_int 0 = u "0" ∧ str_int (-5) = u "-5".
Proof. repeat split; reflexivity. Qed.

Example strip_example : Fixture.strip (u "  100 ") = u "100".
Proof. reflexivity. Qed.

(** *** C4: the format check of [decode_vin] *)

(** C4. For every input that is empty or whose length is not 17,
    [decode_vin] returns the format error carrying the input as given, and
    its trace is empty: no network call is made (and nothing is logged). *)
Theorem decode_vin_rejects_bad_length (E : Env) (self : EmexVINParser) (vin_code : pystr) :
  vin_code = [] ∨ length vin_code ≠ 17%nat →
  run (decode_vin E self vin_code)
  = (Return {[ "error" := VStr MSG_VIN_FORMAT; "vin" := VStr vin_code ]}, []).
Proof.
  intros Hbad.
  assert (Hcond : negb (truthy_str vin_code) || negb (Nat.eqb (length vin_code) 17) = true).
  { destruct Hbad as [-> | Hlen]; [done |].
    apply orb_true_iff. right. by apply negb_true_iff, Nat.eqb_neq. }
  unfold run, decode_vin, try_except. by rewrite Hcond.
Qed.

Lemma decode_vin_rejects_bad_length_witness :
  run (decode_vin (Fixture.env Fixture.offline) Fixture.a_parser (u "SHORT"))
  = (Return {[ "error" := VStr MSG_VIN_FORMAT; "vin" := VStr (u "SHORT") ]}, []).
Proof.
  apply decode_vin_rejects_bad_length. right. vm_compute. discriminate.
Defined.

(** *** C1: the ordered strategies *)

(** The listings mode does try three strategies. *)
Lemma listings_mode_tries_three (E : Env) : three_strategies_tried E Listings.
Proof.
  intros soup Hnone.
  exists (tag_class "div" "part-item"), (tag_class "tr" "search-row"),
    (tag_attr "div" "data-type" "part").
  split; [reflexivity |].
  unfold trace, run, candidates, part_items, or_list, find_all, effect, bind.
  by rewrite !Hnone.
Qed.

(** On a page whose only offer is marked by an attribute, the offers mode
    finds no candidate. *)
Example attribute_marked_offer_is_no_candidate :
  run (offers (Fixture.env Fixture.offline) Fixture.attribute_offer_page)
  = (Return [], [Probed (FindAll (tag_class "div" "offer-item"));
                 Probed (FindAll (tag_class "tr" "offer-row"))]).
Proof. reflexivity. Qed.

(** C1 (as stated, refuted). The offers mode has two strategies, not three:
    on the blank page it consults [div.offer-item] and [tr.offer-row] and
    nothing else. *)
Lemma offers_mode_lacks_third_strategy :
  ¬ three_strategies_tried (Fixture.env Fixture.offline) Offers.
Proof.
  intros H. destruct (H Fixture.blank_page) as (s1 & s2 & s3 & _ & Ht); [done |].
  vm_compute in Ht. discriminate Ht.
Qed.

(** C1 (amended). The listings mode tries [strategies Listings] (three: by
    class on [div], by class on [tr], by attribute on [div]) and the offers
    mode tries [strategies Offers] (two: by class on [div], by class on
    [tr]), in that order.  The first strategy that yields a node wins: its
    nodes are the candidates, and the trace shows the selectors before it
    and its own, none after it.  When none yields a node the last one's
    empty result is the candidate list. *)
Theorem first_strategy_with_nodes_wins (E : Env) (mode : Mode) (soup : Node E)
    (pre post : list Selector) (s : Selector) (nodes : list (Node E)) :
  strategies mode = pre ++ s :: post →
  Forall (λ s', lib_find_all E soup s' = Return []) pre →
  lib_find_all E soup s = Return nodes →
  nodes ≠ [] ∨ post = [] →
  run (candidates E mode soup)
  = (Return nodes, map (λ s', Probed (FindAll s')) (pre ++ [s])).
Proof.
  intros Hsplit Hpre Hs Hlast.
  assert (Hnodes : post ≠ [] → ∃ n ns, nodes = n :: ns).
  { intros Hpost. destruct Hlast as [Hne | ->]; [| done].
    destruct nodes; [done | eauto]. }
  destruct mode; simpl in Hsplit;
    (destruct pre as [| a [| b [| c pre]]]; simpl in Hsplit; simplify_eq;
     try (by destruct pre));
    repeat match goal with H : Forall _ (_ :: _) |- _ => inversion_clear H end;
    try (destruct Hnodes as (n & ns & ->); [done |]);
    unfold run, candidates, part_items, offers, or_list, find_all, effect, bind, ret;
    repeat match goal with H : lib_find_all _ _ _ = _ |- _ => rewrite H; clear H end;
    try reflexivity; by destruct nodes.
Qed.

Lemma first_strategy_with_nodes_wins_witness :
  run (candidates (Fixture.env Fixture.offline) Listings Fixture.decoy_page)
  = (Return [Fixture.div "part-item" [Fixture.span "article" "A-1"]],
     [Probed (FindAll (tag_class "div" "part-item"))])
  ∧ value (_parse_parts_from_html (Fixture.env Fixture.offline) Fixture.decoy_page)
    = Return [ {[ "article" := u "A-1" ]} ].
Proof.
  split; [| reflexivity].
  apply (first_strategy_with_nodes_wins (Fixture.env Fixture.offline) Listings
           Fixture.decoy_page []
           [tag_class "tr" "search-row"; tag_attr "div" "data-type" "part"]).
  - reflexivity.
  - constructor.
  - reflexivity.
  - left. discriminate.
Defined.

(** *** C8: a page without candidates *)

(** C8. When no strategy of the listings mode finds a node,
    [_parse_parts_from_html] returns the empty list, and does nothing but
    consult the three selectors and log one line at level INFO: no error
    line, no exception. *)
Theorem no_candidates_is_an_empty_success (E : Env) (soup : Node E) :
  (∀ s, s ∈ strategies Listings → lib_find_all E soup s = Return []) →
  run (_parse_parts_from_html E soup)
  = (Return [],
     map (λ s, Probed (FindAll s)) (strategies Listings)
     ++ [Logged INFO (u "Запчасти не найдены или структура сайта изменилась")]).
Proof.
  intros H.
  assert (H1 := H (tag_class "div" "part-item") ltac:(simpl; set_solver)).
  assert (H2 := H (tag_class "tr" "search-row") ltac:(simpl; set_solver)).
  assert (H3 := H (tag_attr "div" "data-type" "part") ltac:(simpl; set_solver)).
  unfold run, _parse_parts_from_html, with_local, try_except, bind, lift, part_items,
    or_list, find_all, effect, bind, ret.
  rewrite H1, H2, H3. reflexivity.
Qed.

Lemma no_candidates_is_an_empty_success_witness :
  run (_parse_parts_from_html (Fixture.env Fixture.offline) Fixture.blank_page)
  = (Return [],
     [ Probed (FindAll (tag_class "div" "part-item"));
       Probed (FindAll (tag_class "tr" "search-row"));
       Probed (FindAll (tag_attr "div" "data-type" "part"));
       Logged INFO (u "Запчасти не найдены или структура сайта изменилась") ]).
Proof.
  apply (no_candidates_is_an_empty_success (Fixture.env Fixture.offline)
           Fixture.blank_page).
  intros s _. reflexivity.
Defined.

(** The offers mode on the same page: an empty list of offers, returned as
    well, with the two consultations as its whole trace. *)
Example blank_page_has_no_offers :
  run (_parse_part_details (Fixture.env Fixture.offline) Fixture.blank_page (u "A-1"))
  = (Return (details_dict (u "A-1") []),
     [ Probed (FindAll (tag_class "div" "offer-item"));
       Probed (FindAll (tag_class "tr" "offer-row")) ]).
Proof. reflexivity. Qed.

(** *** C9: the authentication endpoint without credentials *)

(** C9. When the JSON object of the request lacks [username] or
    [password], the endpoint answers 400, the module-level [parser] is the
    one it was, and the trace is empty: no session is constructed and no
    request is issued. *)
Theorem authenticate_without_credentials (E : Env) (d : Envelope) (parser : EmexVINParser) :
  d !! "username" = None ∨ d !! "password" = None →
  authenticate_endpoint E (Return (BObject d)) parser
  = (Return ({[ "error" := VStr (u "Username и password обязательны") ]}, 400),
     parser, []).
Proof.
  intros Hmissing.
  assert (Hcond : negb (truthy (dict_get d "username"))
                  || negb (truthy (dict_get d "password")) = true).
  { unfold dict_get. destruct Hmissing as [-> | ->]; [done |]. apply orb_true_r. }
  unfold authenticate_endpoint, try_except, bind, answer, data_get, ret.
  by rewrite Hcond.
Qed.

Lemma authenticate_without_credentials_witness :
  authenticate_endpoint (Fixture.env Fixture.offline)
    (Return (BObject {[ "username" := VStr (u "user") ]})) Fixture.a_parser
  = (Return ({[ "error" := VStr (u "Username и password обязательны") ]}, 400),
     Fixture.a_parser, []).
Proof.
  apply authenticate_without_credentials. right. reflexivity.
Defined.

(** *** C6: a failed decode stops the search *)

(** Whatever happens, [decode_vin] returns a dict tagged with the VIN, and
    never fetches a page. *)
Lemma decode_vin_shape (E : Env) (self : EmexVINParser) (vin_code : pystr) :
  ∃ r t, decode_vin E self vin_code tt = (Return r, tt, t)
         ∧ r !! "vin" = Some (VStr vin_code)
         ∧ Forall (λ ev, page_fetch ev = false) t.
Proof.
  unfold decode_vin, try_except, bind, requests_get, response_json, answer, effect, logger,
    emit, ret.
  destruct (negb (truthy_str vin_code) || negb (Nat.eqb (length vin_code) 17)).
  { eexists _, _. split; [done |]. split; [done | constructor]. }
  destruct (http E _) as [response | e].
  - destruct (status_code response =? 200).
    + destruct (json response) as [data | e];
        eexists _, _; (split; [done |]); (split; [done |]); repeat constructor.
    + eexists _, _. split; [done |]. split; [done |]. repeat constructor.
  - eexists _, _. split; [done |]. split; [done |]. repeat constructor.
Qed.

(** C6. When the decode step fails (its result has the key [error]),
    [search_parts_by_vin] returns that very dict, which is tagged with the
    VIN, and its trace is the decoder's: it holds no page fetch. *)
Theorem failed_decode_stops_the_search (E : Env) (self : EmexVINParser)
    (vin_code : pystr) (part_name : option pystr) (r : Envelope) (t : list Event) :
  run (decode_vin E self vin_code) = (Return r, t) →
  is_Some (r !! "error") →
  run (search_parts_by_vin E self vin_code part_name) = (Return r, t)
  ∧ r !! "vin" = Some (VStr vin_code)
  ∧ Forall (λ ev, page_fetch ev = false) t.
Proof.
  intros Hrun Herr.
  destruct (decode_vin_shape E self vin_code) as (r' & t' & Hd & Hvin & Hcalls).
  unfold run in Hrun. rewrite Hd in Hrun. simplify_eq.
  split; [| done].
  unfold run, search_parts_by_vin, try_except, bind. rewrite Hd.
  rewrite bool_decide_eq_true_2 by done.
  unfold ret. by rewrite app_nil_r.
Qed.

Lemma failed_decode_stops_the_search_witness :
  run (search_parts_by_vin (Fixture.env Fixture.offline) Fixture.a_parser
         (u "SHORT") None)
  = (Return {[ "error" := VStr MSG_VIN_FORMAT; "vin" := VStr (u "SHORT") ]}, []).
Proof.
  apply (failed_decode_stops_the_search (Fixture.env Fixture.offline)).
  - reflexivity.
  - eexists. reflexivity.
Defined.

(** *** C5: the vehicle attributes *)

Lemma fill_vehicle_info_snoc (results : list Item) (item : Item) :
  fill_vehicle_info (results ++ [item])
  = match Value_ item with
    | Some v => if truthy_str v then <[Variable_ item := v]> (fill_vehicle_info results)
                else fill_vehicle_info results
    | None => fill_vehicle_info results
    end.
Proof. unfold fill_vehicle_info. by rewrite foldl_snoc. Qed.

(** Every entry comes from a pair with that very value, a non-empty one. *)
Lemma fill_vehicle_info_sound (results : list Item) (k : option pystr) (v : pystr) :
  fill_vehicle_info results !! k = Some v →
  v ≠ [] ∧ ∃ item, item ∈ results ∧ Variable_ item = k ∧ Value_ item = Some v.
Proof.
  induction results as [| item results IH] using rev_ind; [done |].
  rewrite fill_vehicle_info_snoc.
  assert (Hold : fill_vehicle_info results !! k = Some v →
                 v ≠ [] ∧ ∃ item', item' ∈ results ++ [item]
                                   ∧ Variable_ item' = k ∧ Value_ item' = Some v).
  { intros H. destruct (IH H) as (Hv & item' & Hin & Hk & Hval).
    split; [done |]. exists item'. rewrite elem_of_app. auto. }
  destruct (Value_ item) as [v' |] eqn:Hval; [| done].
  destruct (truthy_str v') eqn:Htruthy; [| done].
  destruct (decide (Variable_ item = k)) as [<- | Hne].
  - rewrite lookup_insert_eq. intros [= <-]. split; [by destruct v' |].
    exists item. rewrite elem_of_app, list_elem_of_singleton. auto.
  - by rewrite lookup_insert_ne.
Qed.

(** A pair with a non-empty value is stored under its variable, unless a
    later pair with a non-empty value names the same variable. *)
Lemma fill_vehicle_info_complete (pre post : list Item) (item : Item) (v : pystr) :
  Value_ item = Some v → v ≠ [] →
  (∀ later, later ∈ post → Variable_ later = Variable_ item →
            truthy_opt (Value_ later) = false) →
  fill_vehicle_info (pre ++ item :: post) !! Variable_ item = Some v.
Proof.
  intros Hval Hv.
  induction post as [| later post IH] using rev_ind; intros Hlater.
  - rewrite fill_vehicle_info_snoc, Hval.
    destruct v; [done |]. simpl. by rewrite lookup_insert_eq.
  - replace (pre ++ item :: post ++ [later]) with ((pre ++ item :: post) ++ [later])
      by by rewrite <- app_assoc.
    rewrite fill_vehicle_info_snoc.
    assert (IH' : fill_vehicle_info (pre ++ item :: post) !! Variable_ item = Some v).
    { apply IH. intros later' Hin. apply Hlater. rewrite elem_of_app. auto. }
    destruct (Value_ later) as [v' |] eqn:Hval'; [| done].
    destruct (truthy_str v') eqn:Htruthy; [| done].
    rewrite lookup_insert_ne; [done |].
    intros Heq.
    assert (Hin : later ∈ post ++ [later])
      by (rewrite elem_of_app, list_elem_of_singleton; auto).
    specialize (Hlater later Hin Heq).
    rewrite Hval' in Hlater. simpl in Hlater. congruence.
Qed.

(** What [decode_vin] does once the format check has passed and the
    decoder has answered. *)
Lemma decode_vin_answered (E : Env) (self : EmexVINParser) (vin_code : pystr)
    (response : Response) :
  length vin_code = 17%nat →
  http E (RequestsGet (nhtsa_url vin_code) 10) = Return response →
  value (decode_vin E self vin_code)
  = if status_code response =? 200 then
      match json response with
      | Return data =>
          Return {[ "vin" := VStr vin_code;
                    "vehicle_info" := VInfo (fill_vehicle_info (default [] (Results data)));
                    "decoded" := VBool true ]}
      | Raise e => Return {[ "error" := VStr (str_exn e); "vin" := VStr vin_code ]}
      end
    else Return {[ "error" := VStr (u "Не удалось декодировать VIN");
                   "vin" := VStr vin_code ]}.
Proof.
  intros Hlen Hhttp.
  assert (Hcond : negb (truthy_str vin_code) || negb (Nat.eqb (length vin_code) 17) = false).
  { rewrite Hlen. by destruct vin_code. }
  unfold value, run, decode_vin, try_except, bind, requests_get, response_json, answer,
    effect.
  rewrite Hcond, Hhttp.
  destruct (status_code response =? 200); [| done].
  by destruct (json response).
Qed.

(** C5 (as stated, refuted). A response with status 201, a 2xx status,
    builds no vehicle attributes at all, whatever its pairs; and with status
    200, of two pairs with non-empty values for the same variable only the
    later is mapped. *)
Lemma status_201_and_repeated_variable :
  (∃ r, value (decode_vin
                 (Fixture.env (Fixture.answering
                    (Fixture.json_response 201 [Fixture.pair "Make" "Toyota"])))
                 Fixture.a_parser Fixture.a_vin) = Return r
        ∧ r !! "vehicle_info" = None)
  ∧ value (decode_vin
             (Fixture.env (Fixture.answering
                (Fixture.json_response 200
                   [Fixture.pair "Make" "Toyota"; Fixture.pair "Make" "Honda"])))
             Fixture.a_parser Fixture.a_vin)
    = Return {[ "vin" := VStr Fixture.a_vin;
                "vehicle_info" := VInfo {[ Some (u "Make") := u "Honda" ]};
                "decoded" := VBool true ]}.
Proof. split; [eexists; split; reflexivity | reflexivity]. Qed.

(** C5 (amended). For a response with status 200 whose body is a list of
    Variable/Value pairs, the result holds the vehicle attributes [info],
    where: every entry of [info] is the non-empty value of a pair with that
    variable (an empty or absent value is never stored), and every pair with
    a non-empty value is stored under its variable unless a later pair with
    a non-empty value names the same variable. *)
Theorem vehicle_info_keeps_non_empty_values (E : Env) (self : EmexVINParser)
    (vin_code : pystr) (response : Response) (results : list Item) :
  length vin_code = 17%nat →
  http E (RequestsGet (nhtsa_url vin_code) 10) = Return response →
  status_code response = 200 →
  json response = Return {| Results := Some results |} →
  ∃ info : VehicleInfo,
    value (decode_vin E self vin_code)
    = Return {[ "vin" := VStr vin_code; "vehicle_info" := VInfo info;
                "decoded" := VBool true ]}
    ∧ (∀ k v, info !! k = Some v →
              v ≠ [] ∧ ∃ item, item ∈ results ∧ Variable_ item = k ∧ Value_ item = Some v)
    ∧ (∀ pre item post v,
         results = pre ++ item :: post →
         Value_ item = Some v → v ≠ [] →
         (∀ later, later ∈ post → Variable_ later = Variable_ item →
                   truthy_opt (Value_ later) = false) →
         info !! Variable_ item = Some v).
Proof.
  intros Hlen Hhttp Hstatus Hjson.
  exists (fill_vehicle_info results). split; [| split].
  - rewrite (decode_vin_answered E self vin_code response Hlen Hhttp).
    by rewrite Hstatus, Hjson.
  - apply fill_vehicle_info_sound.
  - intros pre item post v ->. apply fill_vehicle_info_complete.
Qed.

Lemma vehicle_info_keeps_non_empty_values_witness :
  ∃ info : VehicleInfo,
    value (decode_vin
             (Fixture.env (Fixture.answering
                (Fixture.json_response 200
                   [Fixture.pair "Make" "Toyota"; Fixture.pair "Model" EmptyString])))
             Fixture.a_parser Fixture.a_vin)
    = Return {[ "vin" := VStr Fixture.a_vin; "vehicle_info" := VInfo info;
                "decoded" := VBool true ]}
    ∧ info !! Some (u "Make") = Some (u "Toyota")
    ∧ info !! Some (u "Model") = None.
Proof.
  destruct (vehicle_info_keeps_non_empty_values
              (Fixture.env (Fixture.answering
                 (Fixture.json_response 200
                    [Fixture.pair "Make" "Toyota"; Fixture.pair "Model" EmptyString])))
              Fixture.a_parser Fixture.a_vin
              (Fixture.json_response 200
                 [Fixture.pair "Make" "Toyota"; Fixture.pair "Model" EmptyString])
              [Fixture.pair "Make" "Toyota"; Fixture.pair "Model" EmptyString])
    as (info & Hvalue & Hsound & Hcomplete); try reflexivity.
  exists info. split; [exact Hvalue |]. split.
  - apply (Hcomplete [] (Fixture.pair "Make" "Toyota") [Fixture.pair "Model" EmptyString]);
      [reflexivity | reflexivity | discriminate |].
    intros later Hin _. apply list_elem_of_singleton in Hin. by subst.
  - destruct (info !! Some (u "Model")) as [v |] eqn:Hv; [| reflexivity].
    destruct (Hsound _ _ Hv) as (Hne & item & Hin & Hk & Hval).
    apply elem_of_cons in Hin as [-> | Hin]; [discriminate Hk |].
    apply list_elem_of_singleton in Hin as ->.
    injection Hval as <-. by destruct Hne.
Defined.

(** *** C7: the status of a response *)

(** [_parse_parts_from_html] returns a list whatever the library does. *)
Lemma parse_parts_returns (E : Env) (soup : Node E) :
  ∃ parts t, _parse_parts_from_html E soup tt = (Return parts, tt, t).
Proof.
  unfold _parse_parts_from_html, with_local, bind at 1, try_except.
  match goal with |- context [bind ?m ?k []] => destruct (bind m k []) as [[[[] | e] l] t] end;
    unfold lift, logger, emit, get_local; eauto.
Qed.

(** What [search_parts_by_vin] does once the decode has succeeded and the
    shop has answered. *)
Lemma search_answered (E : Env) (self : EmexVINParser) (vin_code : pystr)
    (part_name : option pystr) (vin_info : Envelope) (page : Response) :
  value (decode_vin E self vin_code) = Return vin_info →
  vin_info !! "error" = None →
  http E (SessionGet (session self) (search_url self vin_code part_name) 30) = Return page →
  ∃ parts,
    value (_parse_parts_from_html E (BeautifulSoup E (text page))) = Return parts
    ∧ value (search_parts_by_vin E self vin_code part_name)
      = if status_code page =? 200 then
          Return {[ "vin" := VStr vin_code;
                    "vehicle_info" := default (VInfo ∅) (vin_info !! "vehicle_info");
                    "parts" := VParts parts;
                    "total_parts" := VInt (Z.of_nat (length parts));
                    "timestamp" := VStr (isoformat_now E) ]}
        else
          Return {[ "error" := VStr (u "Ошибка при запросе к emex.ru: "
                                       ++ str_int (status_code page));
                    "vin" := VStr vin_code ]}.
Proof.
  intros Hdecode Hok Hhttp.
  destruct (decode_vin_shape E self vin_code) as (r & t & Hd & _ & _).
  unfold value, run in Hdecode. rewrite Hd in Hdecode. simpl in Hdecode. simplify_eq.
  destruct (parse_parts_returns E (BeautifulSoup E (text page))) as (parts & tp & Hp).
  exists parts. split; [unfold value, run; by rewrite Hp |].
  unfold value, run, search_parts_by_vin, try_except, bind. rewrite Hd.
  rewrite bool_decide_eq_false_2 by (rewrite Hok; by intros [? ?]).
  unfold session_get, effect. rewrite Hhttp.
  destruct (status_code page =? 200); simpl; [| done].
  by rewrite Hp.
Qed.

(** C7 (as stated, refuted). Status 204 is a 2xx status, yet the decode
    does not proceed to parsing: it returns the error, which carries no
    status code. *)
Lemma status_204_is_an_error :
  value (decode_vin
           (Fixture.env (Fixture.answering
              (Fixture.json_response 204 [Fixture.pair "Make" "Toyota"])))
           Fixture.a_parser Fixture.a_vin)
  = Return {[ "error" := VStr (u "Не удалось декодировать VIN");
              "vin" := VStr Fixture.a_vin ]}.
Proof. reflexivity. Qed.

(** C7 (amended). Both calls compare the status with 200.  The decode of a
    well-formed VIN: any other status gives the error dict with a fixed
    message (no status code) and the VIN; status 200 proceeds to [json()]
    and the pairs.  The page fetch of the search: any other status gives the
    error dict whose message ends with the status code, and the VIN; status
    200 proceeds to the extraction of the listings. *)
Theorem only_status_200_is_parsed (E : Env) (self : EmexVINParser)
    (vin_code : pystr) (part_name : option pystr) :
  length vin_code = 17%nat →
  (∀ response,
     http E (RequestsGet (nhtsa_url vin_code) 10) = Return response →
     (status_code response ≠ 200 →
      value (decode_vin E self vin_code)
      = Return {[ "error" := VStr (u "Не удалось декодировать VIN");
                  "vin" := VStr vin_code ]})
     ∧ (status_code response = 200 →
        value (decode_vin E self vin_code)
        = match json response with
          | Return data =>
              Return {[ "vin" := VStr vin_code;
                        "vehicle_info" :=
                          VInfo (fill_vehicle_info (default [] (Results data)));
                        "decoded" := VBool true ]}
          | Raise e => Return {[ "error" := VStr (str_exn e); "vin" := VStr vin_code ]}
          end))
  ∧ (∀ vin_info page,
       value (decode_vin E self vin_code) = Return vin_info →
       vin_info !! "error" = None →
       http E (SessionGet (session self) (search_url self vin_code part_name) 30)
       = Return page →
       (status_code page ≠ 200 →
        value (search_parts_by_vin E self vin_code part_name)
        = Return {[ "error" := VStr (u "Ошибка при запросе к emex.ru: "
                                       ++ str_int (status_code page));
                    "vin" := VStr vin_code ]})
       ∧ (status_code page = 200 →
          ∃ parts,
            value (_parse_parts_from_html E (BeautifulSoup E (text page))) = Return parts
            ∧ value (search_parts_by_vin E self vin_code part_name)
              = Return {[ "vin" := VStr vin_code;
                          "vehicle_info" := default (VInfo ∅) (vin_info !! "vehicle_info");
                          "parts" := VParts parts;
                          "total_parts" := VInt (Z.of_nat (length parts));
                          "timestamp" := VStr (isoformat_now E) ]})).
Proof.
  intros Hlen. split.
  - intros response Hhttp.
    rewrite (decode_vin_answered E self vin_code response Hlen Hhttp).
    split; intros Hstatus.
    + by apply Z.eqb_neq in Hstatus as ->.
    + by apply Z.eqb_eq in Hstatus as ->.
  - intros vin_info page Hdecode Hok Hhttp.
    destruct (search_answered E self vin_code part_name vin_info page Hdecode Hok Hhttp)
      as (parts & Hparts & Hsearch).
    split; intros Hstatus.
    + rewrite Hsearch. by apply Z.eqb_neq in Hstatus as ->.
    + exists parts. split; [done |]. rewrite Hsearch.
      by apply Z.eqb_eq in Hstatus as ->.
Qed.

Lemma only_status_200_is_parsed_witness :
  value (search_parts_by_vin
           (Fixture.env (Fixture.serving
              (Fixture.json_response 200 [Fixture.pair "Make" "Toyota"])
              (Fixture.page_response 404 "decoy")))
           Fixture.a_parser Fixture.a_vin None)
  = Return {[ "error" := VStr (u "Ошибка при запросе к emex.ru: 404");
              "vin" := VStr Fixture.a_vin ]}.
Proof.
  destruct (only_status_200_is_parsed
              (Fixture.env (Fixture.serving
                 (Fixture.json_response 200 [Fixture.pair "Make" "Toyota"])
                 (Fixture.page_response 404 "decoy")))
              Fixture.a_parser Fixture.a_vin None) as [_ Hsearch]; [reflexivity |].
  destruct (Hsearch
              {[ "vin" := VStr Fixture.a_vin;
                 "vehicle_info" := VInfo {[ Some (u "Make") := u "Toyota" ]};
                 "decoded" := VBool true ]}
              (Fixture.page_response 404 "decoy")) as [Herror _].
  - reflexivity.
  - reflexivity.
  - reflexivity.
  - rewrite Herror; [reflexivity | discriminate].
Defined.

(** *** The loops over the candidates *)

Lemma run_eta {Ev A} (m : M Ev unit A) : m tt = (value m, tt, trace m).
Proof. unfold value, trace, run. by destruct (m tt) as [[r []] t]. Qed.

(** [_extract_part_info] catches whatever its body raises. *)
Lemma extract_part_info_returns (E : Env) (item : Node E) :
  ∃ r, value (_extract_part_info E item) = Return r.
Proof.
  unfold value, run, _extract_part_info, try_except.
  destruct (read_part_info E item tt) as [[[r | e] []] t]; simpl; eauto.
Qed.

Lemma extract_part_info_of_raise (E : Env) (item : Node E) (e : Exn) :
  value (read_part_info E item) = Raise e →
  value (_extract_part_info E item) = Return None.
Proof.
  unfold value, run, _extract_part_info, try_except.
  destruct (read_part_info E item tt) as [[[r | e'] []] t]; simpl; [done |].
  reflexivity.
Qed.

Lemma keep_part_run (E : Env) (item : Node E) (acc : list PartListing) :
  ∃ t, keep_part E item acc = (Return tt, acc ++ option_list (part_of E item), t).
Proof.
  unfold keep_part, part_of, bind, lift. rewrite run_eta.
  destruct (extract_part_info_returns E item) as (r & ->).
  destruct r as [d |]; [| rewrite app_nil_r; by eexists].
  destruct (bool_decide (d = ∅)); [rewrite app_nil_r; by eexists |].
  by eexists.
Qed.

Lemma parts_loop_run (E : Env) (items : list (Node E)) (acc : list PartListing) :
  ∃ t, for_ items (keep_part E) acc = (Return tt, acc ++ omap (part_of E) items, t).
Proof.
  revert acc. induction items as [| item items IH]; intros acc.
  - rewrite app_nil_r. by eexists.
  - simpl for_. unfold bind at 1.
    destruct (keep_part_run E item acc) as (t1 & ->).
    destruct (IH (acc ++ option_list (part_of E item))) as (t2 & ->).
    eexists. f_equal. f_equal. rewrite <- app_assoc. f_equal.
    simpl. by destruct (part_of E item).
Qed.

(** The listings of a page are the records of its candidates, each node on
    its own. *)
Lemma parse_parts_value (E : Env) (soup : Node E) (items : list (Node E)) :
  value (part_items E soup) = Return items →
  value (_parse_parts_from_html E soup) = Return (omap (part_of E) items).
Proof.
  intros Hitems.
  unfold value at 1, run, _parse_parts_from_html, with_local, bind at 1, try_except,
    bind at 1, lift at 1.
  rewrite run_eta, Hitems. unfold bind at 1.
  destruct (parts_loop_run E items []) as (t & Hloop).
  rewrite Hloop. simpl.
  unfold bind, get_local, lift, logger, emit, ret.
  by destruct (omap (part_of E) items).
Qed.

Lemma keep_offer_run (E : Env) (item : Node E) (acc : list Offer) :
  well_formed E item →
  ∃ t, keep_offer E item acc = (Return tt, acc ++ option_list (offer_of E item), t).
Proof.
  intros [d Hd].
  unfold keep_offer, offer_of, bind, lift. rewrite run_eta, Hd.
  destruct (any_values d); [| rewrite app_nil_r]; by eexists.
Qed.

Lemma keep_offer_raise (E : Env) (item : Node E) (acc : list Offer) (e : Exn) :
  value (offer_record E item) = Raise e →
  ∃ t, keep_offer E item acc = (Raise e, acc, t).
Proof.
  intros He. unfold keep_offer, bind, lift. rewrite run_eta, He. by eexists.
Qed.

Lemma offers_loop_run (E : Env) (items : list (Node E)) (acc : list Offer) :
  Forall (well_formed E) items →
  ∃ t, for_ items (keep_offer E) acc = (Return tt, acc ++ omap (offer_of E) items, t).
Proof.
  intros Hall. revert acc.
  induction Hall as [| item items Hitem _ IH]; intros acc.
  - rewrite app_nil_r. by eexists.
  - simpl for_. unfold bind at 1.
    destruct (keep_offer_run E item acc Hitem) as (t1 & ->).
    destruct (IH (acc ++ option_list (offer_of E item))) as (t2 & ->).
    eexists. f_equal. f_equal. rewrite <- app_assoc. f_equal.
    simpl. by destruct (offer_of E item).
Qed.

(** The loop stops at the first node that raises: the nodes after it are
    not visited. *)
Lemma offers_loop_raise (E : Env) (pre post : list (Node E)) (bad : Node E)
    (acc : list Offer) (e : Exn) :
  Forall (well_formed E) pre →
  value (offer_record E bad) = Raise e →
  ∃ t, for_ (pre ++ bad :: post) (keep_offer E) acc
       = (Raise e, acc ++ omap (offer_of E) pre, t).
Proof.
  intros Hpre Hbad. revert acc.
  induction Hpre as [| item pre Hitem _ IH]; intros acc.
  - simpl for_. unfold bind at 1.
    destruct (keep_offer_raise E bad acc e Hbad) as (t & ->).
    rewrite app_nil_r. by eexists.
  - simpl for_. unfold bind at 1.
    destruct (keep_offer_run E item acc Hitem) as (t1 & ->).
    destruct (IH (acc ++ option_list (offer_of E item))) as (t2 & ->).
    eexists. f_equal. f_equal. rewrite <- app_assoc. f_equal.
    simpl. by destruct (offer_of E item).
Qed.

(** [_parse_part_details] returns the dict [details] whatever happens. *)
Lemma parse_details_returns (E : Env) (soup : Node E) (article : pystr) :
  ∃ offer_list,
    value (_parse_part_details E soup article) = Return (details_dict article offer_list).
Proof.
  unfold value, run, _parse_part_details, with_local, bind at 1, try_except.
  match goal with |- context [bind ?m ?k []] => destruct (bind m k []) as [[[[] | e] l] t] end;
    unfold bind, lift, logger, emit, get_local, ret; simpl; eauto.
Qed.

Lemma parse_details_value (E : Env) (soup : Node E) (article : pystr)
    (items : list (Node E)) :
  value (offers E soup) = Return items →
  Forall (well_formed E) items →
  value (_parse_part_details E soup article)
  = Return (details_dict article (omap (offer_of E) items)).
Proof.
  intros Hitems Hall.
  unfold value at 1, run, _parse_part_details, with_local, bind at 1, try_except,
    bind at 1, lift at 1.
  rewrite run_eta, Hitems.
  destruct (offers_loop_run E items [] Hall) as (t & Hloop).
  by rewrite Hloop.
Qed.

Lemma parse_details_value_raise (E : Env) (soup : Node E) (article : pystr)
    (pre post : list (Node E)) (bad : Node E) (e : Exn) :
  value (offers E soup) = Return (pre ++ bad :: post) →
  Forall (well_formed E) pre →
  value (offer_record E bad) = Raise e →
  value (_parse_part_details E soup article)
  = Return (details_dict article (omap (offer_of E) pre)).
Proof.
  intros Hitems Hpre Hbad.
  unfold value at 1, run, _parse_part_details, with_local, bind at 1, try_except,
    bind at 1, lift at 1.
  rewrite run_eta, Hitems.
  destruct (offers_loop_raise E pre post bad [] e Hpre Hbad) as (t & Hloop).
  by rewrite Hloop.
Qed.

(** *** C10: the details of a part *)

(** C10. When the shop answers the request for an article with status 200,
    [get_part_details] returns the dict with the article under [article] and
    a list under [offers], and with no key [error].  This holds whatever
    the extraction does; when building the offer of a node raises, the list
    holds the offers kept before that node. *)
Theorem details_of_an_answered_article (E : Env) (self : EmexVINParser)
    (article : pystr) (page : Response) :
  http E (SessionGet (session self) (article_url self article) 30) = Return page →
  status_code page = 200 →
  ∃ (r : Envelope) (offer_list : list Offer),
    value (get_part_details E self article) = Return r
    ∧ r = {[ "article" := VStr article; "offers" := VOffers offer_list ]}
    ∧ r !! "error" = None
    ∧ (∀ pre bad post e,
         value (offers E (BeautifulSoup E (text page))) = Return (pre ++ bad :: post) →
         Forall (well_formed E) pre →
         value (offer_record E bad) = Raise e →
         offer_list = omap (offer_of E) pre).
Proof.
  intros Hhttp Hstatus.
  destruct (parse_details_returns E (BeautifulSoup E (text page)) article)
    as (offer_list & Hdetails).
  exists (details_dict article offer_list), offer_list.
  split; [| split; [done | split; [done |]]].
  - assert (Hs : negb (status_code page =? 200) = false) by by rewrite Hstatus.
    unfold value, run, get_part_details, try_except, bind at 1, session_get, effect.
    rewrite Hhttp, Hs. unfold bind.
    rewrite run_eta, Hdetails. reflexivity.
  - intros pre bad post e Hitems Hpre Hbad.
    rewrite (parse_details_value_raise E _ article pre post bad e Hitems Hpre Hbad)
      in Hdetails.
    unfold details_dict in Hdetails.
    assert (Hlook : ({[ "article" := VStr article;
                        "offers" := VOffers (omap (offer_of E) pre) ]} : Envelope)
                    !! "offers"
                    = ({[ "article" := VStr article;
                          "offers" := VOffers offer_list ]} : Envelope) !! "offers")
      by congruence.
    by injection Hlook.
Qed.

Lemma details_of_an_answered_article_witness :
  ∃ offer_list,
    value (get_part_details
             (Fixture.env (Fixture.answering (Fixture.page_response 200 "broken-offers")))
             Fixture.a_parser (u "A-1"))
    = Return {[ "article" := VStr (u "A-1"); "offers" := VOffers offer_list ]}
    ∧ length offer_list = 1%nat.
Proof.
  destruct (details_of_an_answered_article
              (Fixture.env (Fixture.answering (Fixture.page_response 200 "broken-offers")))
              Fixture.a_parser (u "A-1") (Fixture.page_response 200 "broken-offers"))
    as (r & offer_list & Hvalue & -> & _ & Hkept); [reflexivity | reflexivity |].
  exists offer_list. split; [exact Hvalue |].
  rewrite (Hkept [Fixture.div "offer-item" [Fixture.span "price" "1"]]
             (Fixture.faulty_div "offer-item" [Fixture.span "price" "2"])
             [Fixture.div "offer-item" [Fixture.span "price" "3"]]
             (Exception (u "malformed node"))).
  - reflexivity.
  - reflexivity.
  - repeat constructor. eexists. reflexivity.
  - reflexivity.
Defined.

(** *** C3: a node that raises *)

(** C3 (as stated, refuted). In the offers mode the second of three nodes
    raises; the third is well formed and would be kept, yet the result
    holds the first offer only. *)
Lemma offers_after_a_raising_node_are_lost :
  value (_parse_part_details (Fixture.env Fixture.offline)
           Fixture.broken_offers_page (u "A-1"))
  = Return (details_dict (u "A-1") [ <["price" := Some (u "1")]> offer_data0 ])
  ∧ offer_of (Fixture.env Fixture.offline)
             (Fixture.div "offer-item" [Fixture.span "price" "3"])
    = Some (<["price" := Some (u "3")]> offer_data0).
Proof. split; reflexivity. Qed.

(** C3 (amended). In the listings mode every candidate is handled on its
    own: the result is the list of the records of the candidates, and a node
    whose traversal raises contributes none.  In the offers mode the nodes
    before the first one that raises contribute their records; that node and
    all nodes after it contribute none.  In both modes the result is
    returned, not an exception. *)
Theorem a_raising_node_and_the_rest (E : Env) (soup : Node E) (article : pystr)
    (pre post : list (Node E)) (bad : Node E) (e : Exn) :
  (value (part_items E soup) = Return (pre ++ bad :: post) →
   value (read_part_info E bad) = Raise e →
   value (_parse_parts_from_html E soup)
   = Return (omap (part_of E) pre ++ omap (part_of E) post))
  ∧ (value (offers E soup) = Return (pre ++ bad :: post) →
     Forall (well_formed E) pre →
     value (offer_record E bad) = Raise e →
     value (_parse_part_details E soup article)
     = Return (details_dict article (omap (offer_of E) pre))).
Proof.
  split.
  - intros Hitems Hbad.
    rewrite (parse_parts_value E soup _ Hitems).
    rewrite omap_app. simpl.
    unfold part_of at 2. by rewrite (extract_part_info_of_raise E bad e Hbad).
  - intros Hitems Hpre Hbad.
    by apply (parse_details_value_raise E soup article pre post bad e).
Qed.

Lemma a_raising_node_and_the_rest_witness :
  value (_parse_parts_from_html (Fixture.env Fixture.offline) Fixture.broken_listings_page)
  = Return [ {[ "article" := u "A-1" ]}; {[ "article" := u "A-3" ]} ]
  ∧ value (_parse_part_details (Fixture.env Fixture.offline)
             Fixture.broken_offers_page (u "A-1"))
    = Return (details_dict (u "A-1") [ <["price" := Some (u "1")]> offer_data0 ]).
Proof.
  split.
  - destruct (a_raising_node_and_the_rest (Fixture.env Fixture.offline)
                Fixture.broken_listings_page (u "A-1")
                [Fixture.div "part-item" [Fixture.span "article" "A-1"]]
                [Fixture.div "part-item" [Fixture.span "article" "A-3"]]
                (Fixture.faulty_div "part-item" [Fixture.span "article" "A-2"])
                (Exception (u "malformed node"))) as [Hlistings _].
    rewrite Hlistings; reflexivity.
  - destruct (a_raising_node_and_the_rest (Fixture.env Fixture.offline)
                Fixture.broken_offers_page (u "A-1")
                [Fixture.div "offer-item" [Fixture.span "price" "1"]]
                [Fixture.div "offer-item" [Fixture.span "price" "3"]]
                (Fixture.faulty_div "offer-item" [Fixture.span "price" "2"])
                (Exception (u "malformed node"))) as [_ Hoffers].
    rewrite Hoffers.
    + reflexivity.
    + reflexivity.
    + repeat constructor. eexists. reflexivity.
    + reflexivity.
Defined.

(** *** C2: which nodes are kept, and with which fields *)

Lemma part_field_cases (P : string → Selector → Selector → Prop) :
  (∀ k s1 s2, (k, s1, s2) ∈ part_fields → P k s1 s2) ↔
  P "article" (by_class "article") (tag_attr "td" "data-title" "Артикул")
  ∧ P "name" (by_class "name") (by_class "part-name")
  ∧ P "price" (by_class "price") (tag_attr "td" "data-title" "Цена")
  ∧ P "availability" (by_class "availability") (tag_attr "td" "data-title" "Наличие")
  ∧ P "manufacturer" (by_class "manufacturer") (by_class "brand")
  ∧ P "delivery_time" (by_class "delivery") (tag_attr "td" "data-title" "Срок").
Proof.
  split.
  - intros H. repeat split; apply H; unfold part_fields; repeat constructor.
  - intros (H1 & H2 & H3 & H4 & H5 & H6) k s1 s2 Hin. unfold part_fields in Hin.
    repeat (apply elem_of_cons in Hin as [Heq | Hin]; [by injection Heq as -> -> -> |]).
    by apply elem_of_nil in Hin.
Qed.

Lemma offer_field_cases (P : string → Selector → Prop) :
  (∀ k s, (k, s) ∈ offer_fields → P k s) ↔
  P "price" (by_class "price") ∧ P "availability" (by_class "availability")
  ∧ P "warehouse" (by_class "warehouse") ∧ P "delivery_time" (by_class "delivery").
Proof.
  split.
  - intros H. repeat split; apply H; unfold offer_fields; repeat constructor.
  - intros (H1 & H2 & H3 & H4) k s Hin. unfold offer_fields in Hin.
    repeat (apply elem_of_cons in Hin as [Heq | Hin]; [by injection Heq as -> -> |]).
    by apply elem_of_nil in Hin.
Qed.

Ltac run_part_info :=
  unfold part_of, value, run, _extract_part_info, try_except, read_part_info,
    with_local, set_text, or_node, bind, lift, find, get_text, effect,
    get_local, set_local, ret;
  repeat match goal with
         | H : lib_find _ _ _ = _ |- _ => rewrite H; clear H
         | H : lib_get_text _ _ = _ |- _ => rewrite H; clear H
         end.

(** A node in which no field element is found contributes no listing. *)
Lemma part_of_nothing_found (E : Env) (item : Node E) :
  (∀ k s1 s2, (k, s1, s2) ∈ part_fields →
              lib_find E item s1 = Return None ∧ lib_find E item s2 = Return None) →
  part_of E item = None.
Proof.
  intros H.
  apply (part_field_cases
           (λ _ s1 s2, lib_find E item s1 = Return None ∧ lib_find E item s2 = Return None))
    in H.
  destruct H as ([] & [] & [] & [] & [] & []).
  run_part_info. reflexivity.
Qed.

Ltac other_fields :=
  repeat match goal with
         | H : ?a ≠ ?b → _ ∧ _ |- _ =>
             first [ destruct (H ltac:(discriminate)) as [? ?]; clear H | clear H ]
         | H : ?a ≠ ?b → _ = _ |- _ =>
             first [ pose proof (H ltac:(discriminate)); clear H | clear H ]
         end.

(** A node in which exactly one field element is found contributes the
    listing with that key alone, whatever the text of the element. *)
Lemma part_of_one_field (E : Env) (item n : Node E) (k : string) (s1 s2 : Selector)
    (t : pystr) :
  (k, s1, s2) ∈ part_fields →
  found E item s1 s2 = Return (Some n) →
  lib_get_text E n = Return t →
  (∀ k' s1' s2', (k', s1', s2') ∈ part_fields → k' ≠ k →
                 lib_find E item s1' = Return None ∧ lib_find E item s2' = Return None) →
  part_of E item = Some {[ k := t ]}.
Proof.
  intros Hin Hfound Htext Hothers.
  apply (part_field_cases
           (λ k' s1' s2', k' ≠ k → lib_find E item s1' = Return None
                                   ∧ lib_find E item s2' = Return None))
    in Hothers.
  destruct Hothers as (H1 & H2 & H3 & H4 & H5 & H6).
  unfold found in Hfound. unfold part_fields in Hin.
  repeat (apply elem_of_cons in Hin as [Heq | Hin];
          [ injection Heq as -> -> ->; other_fields;
            match type of Hfound with
            | context [lib_find E item ?s] =>
                destruct (lib_find E item s) as [[n1 |] | e1] eqn:Hs1;
                [ injection Hfound as -> | | discriminate Hfound ]
            end;
            run_part_info; reflexivity
          | ]).
  by apply elem_of_nil in Hin.
Qed.

Ltac run_offer :=
  unfold offer_of, value, run, offer_record, with_local, set_offer_text, bind, lift,
    find, get_text, effect, get_local, set_local, ret;
  repeat match goal with
         | H : lib_find _ _ _ = _ |- _ => rewrite H; clear H
         | H : lib_get_text _ _ = _ |- _ => rewrite H; clear H
         end.

(** A node whose field elements are all missing or without text contributes
    no offer. *)
Lemma offer_of_nothing_said (E : Env) (item : Node E) :
  (∀ k s, (k, s) ∈ offer_fields →
          lib_find E item s = Return None
          ∨ ∃ n, lib_find E item s = Return (Some n) ∧ lib_get_text E n = Return []) →
  offer_of E item = None.
Proof.
  intros H.
  apply (offer_field_cases
           (λ _ s, lib_find E item s = Return None
                   ∨ ∃ n, lib_find E item s = Return (Some n)
                          ∧ lib_get_text E n = Return [])) in H.
  destruct H as ([? | (n1 & ? & ?)] & [? | (n2 & ? & ?)]
                 & [? | (n3 & ? & ?)] & [? | (n4 & ? & ?)]);
    run_offer; reflexivity.
Qed.

(** A node in which exactly one field element is found, with a text that is
    not empty, contributes the offer with that field set and the others
    [None]. *)
Lemma offer_of_one_field (E : Env) (item n : Node E) (k : string) (s : Selector)
    (t : pystr) :
  (k, s) ∈ offer_fields →
  lib_find E item s = Return (Some n) →
  lib_get_text E n = Return t →
  t ≠ [] →
  (∀ k' s', (k', s') ∈ offer_fields → k' ≠ k → lib_find E item s' = Return None) →
  offer_of E item = Some (<[k := Some t]> offer_data0).
Proof.
  intros Hin Hfound Htext Ht Hothers.
  apply (offer_field_cases (λ k' s', k' ≠ k → lib_find E item s' = Return None))
    in Hothers.
  destruct Hothers as (H1 & H2 & H3 & H4).
  destruct t as [| c t]; [done |].
  unfold offer_fields in Hin.
  repeat (apply elem_of_cons in Hin as [Heq | Hin];
          [ injection Heq as -> ->; other_fields; run_offer; reflexivity | ]).
  by apply elem_of_nil in Hin.
Qed.

(** C2 (as stated, refuted). A listing node whose only field element has no
    text contributes zero non-empty fields, yet it is in the output, as a
    record whose one field is the empty string.  An offer node with one
    non-empty field next to a field element without text is kept with that
    second field set to the empty string, neither absent nor null. *)
Lemma records_with_empty_fields_are_kept :
  value (_parse_parts_from_html (Fixture.env Fixture.offline) Fixture.hollow_page)
  = Return [ {[ "article" := [] ]} ]
  ∧ offer_of (Fixture.env Fixture.offline)
             (Fixture.div "offer-item"
                [Fixture.span "price" "7"; Fixture.span "availability" " "])
    = Some (<["availability" := Some []]> (<["price" := Some (u "7")]> offer_data0)).
Proof. split; reflexivity. Qed.

(** C2 (amended). Listings: the output is the list of the records of the
    candidates; a node in which no field element is found has no record, and
    a node in which exactly one field element is found has the record with
    that key alone, its value the text of the element (possibly empty).
    Offers, when no node raises: the output is the list of the records of
    the candidates; a node whose field elements are all missing or without
    text has no record, and a node in which exactly one field element is
    found, with a non-empty text, has the record with that field set and the
    other three [None]. *)
Theorem kept_records_follow_found_elements (E : Env) :
  (∀ soup items,
     value (part_items E soup) = Return items →
     value (_parse_parts_from_html E soup) = Return (omap (part_of E) items))
  ∧ (∀ item,
       (∀ k s1 s2, (k, s1, s2) ∈ part_fields →
                   lib_find E item s1 = Return None ∧ lib_find E item s2 = Return None) →
       part_of E item = None)
  ∧ (∀ item n k s1 s2 t,
       (k, s1, s2) ∈ part_fields →
       found E item s1 s2 = Return (Some n) →
       lib_get_text E n = Return t →
       (∀ k' s1' s2', (k', s1', s2') ∈ part_fields → k' ≠ k →
                      lib_find E item s1' = Return None
                      ∧ lib_find E item s2' = Return None) →
       part_of E item = Some {[ k := t ]})
  ∧ (∀ soup article items,
       value (offers E soup) = Return items →
       Forall (well_formed E) items →
       value (_parse_part_details E soup article)
       = Return (details_dict article (omap (offer_of E) items)))
  ∧ (∀ item,
       (∀ k s, (k, s) ∈ offer_fields →
               lib_find E item s = Return None
               ∨ ∃ n, lib_find E item s = Return (Some n)
                      ∧ lib_get_text E n = Return []) →
       offer_of E item = None)
  ∧ (∀ item n k s t,
       (k, s) ∈ offer_fields →
       lib_find E item s = Return (Some n) →
       lib_get_text E n = Return t →
       t ≠ [] →
       (∀ k' s', (k', s') ∈ offer_fields → k' ≠ k → lib_find E item s' = Return None) →
       offer_of E item = Some (<[k := Some t]> offer_data0)).
Proof.
  split; [exact (parse_parts_value E) |].
  split; [exact (part_of_nothing_found E) |].
  split; [intros item n k s1 s2 t; exact (part_of_one_field E item n k s1 s2 t) |].
  split; [exact (parse_details_value E) |].
  split; [exact (offer_of_nothing_said E) |].
  intros item n k s t. exact (offer_of_one_field E item n k s t).
Qed.

Lemma kept_records_follow_found_elements_witness :
  value (_parse_parts_from_html (Fixture.env Fixture.offline) Fixture.price_only_page)
  = Return [ {[ "price" := u "100" ]} ]
  ∧ value (_parse_part_details (Fixture.env Fixture.offline) Fixture.offers_page (u "A-1"))
    = Return (details_dict (u "A-1")
                [ <["price" := Some (u "100")]> offer_data0;
                  <["availability" := Some []]> (<["price" := Some (u "7")]> offer_data0) ]).
Proof.
  destruct (kept_records_follow_found_elements (Fixture.env Fixture.offline))
    as (Hparts & _ & Hone & Hoffers & Hnone & _).
  split.
  - rewrite (Hparts Fixture.price_only_page
               [Fixture.div "part-item" [Fixture.span "price" " 100 "]])
      by reflexivity.
    simpl omap.
    rewrite (Hone (Fixture.div "part-item" [Fixture.span "price" " 100 "])
               (Fixture.span "price" " 100 ") "price" (by_class "price")
               (tag_attr "td" "data-title" "Цена") (u "100")); [reflexivity | ..].
    + unfold part_fields. repeat constructor.
    + reflexivity.
    + reflexivity.
    + apply (part_field_cases
               (λ k' s1' s2', k' ≠ "price" →
                  lib_find (Fixture.env Fixture.offline)
                    (Fixture.div "part-item" [Fixture.span "price" " 100 "]) s1'
                  = Return None
                  ∧ lib_find (Fixture.env Fixture.offline)
                      (Fixture.div "part-item" [Fixture.span "price" " 100 "]) s2'
                    = Return None)).
      repeat split; try reflexivity; by destruct H.
  - rewrite (Hoffers Fixture.offers_page (u "A-1")
               [ Fixture.div "offer-item" [Fixture.span "price" "100"];
                 Fixture.div "offer-item" [Fixture.span "unrelated" "x"];
                 Fixture.div "offer-item" [Fixture.span "price" EmptyString];
                 Fixture.div "offer-item"
                   [Fixture.span "price" "7"; Fixture.span "availability" " "] ]).
    + simpl omap.
      rewrite (Hnone (Fixture.div "offer-item" [Fixture.span "price" EmptyString])).
      * reflexivity.
      * apply (offer_field_cases
                 (λ _ s,
                    lib_find (Fixture.env Fixture.offline)
                      (Fixture.div "offer-item" [Fixture.span "price" EmptyString]) s
                    = Return None
                    ∨ ∃ n, lib_find (Fixture.env Fixture.offline)
                             (Fixture.div "offer-item" [Fixture.span "price" EmptyString]) s
                           = Return (Some n)
                           ∧ lib_get_text (Fixture.env Fixture.offline) n = Return [])).
        split; [right; eexists; split; reflexivity |].
        repeat split; left; reflexivity.
    + reflexivity.
    + repeat constructor; eexists; reflexivity.
Defined.

(** ** Further results *)

(** *** What a computation emits *)

Section Emits.
Context {L : Type} (P : Event → Prop).

Lemma emits_ret {A} (a : A) : emits P (ret a : Py L A).
Proof. intros l. constructor. Qed.

Lemma emits_answer {A} (r : Outcome A) : emits P (answer r : Py L A).
Proof. intros l. constructor. Qed.

Lemma emits_get_local : emits P (get_local : Py L L).
Proof. intros l. constructor. Qed.

Lemma emits_set_local (l' : L) : emits P (set_local l' : Py L unit).
Proof. intros l. constructor. Qed.

Lemma emits_effect {A} (ev : Event) (r : Outcome A) :
  P ev → emits P (effect ev r : Py L A).
Proof. intros Hev l. by repeat constructor. Qed.

Lemma emits_bind {A B} (m : Py L A) (k : A → Py L B) :
  emits P m → (∀ a, emits P (k a)) → emits P (bind m k).
Proof.
  intros Hm Hk l. unfold bind. specialize (Hm l).
  destruct (m l) as [[[a | e] l1] t1]; simpl in *; [| done].
  specialize (Hk a l1). destruct (k a l1) as [[r l2] t2]; simpl in *.
  by apply Forall_app.
Qed.

Lemma emits_try_except {A} (body : Py L A) (handler : Exn → Py L A) :
  emits P body → (∀ e, emits P (handler e)) → emits P (try_except body handler).
Proof.
  intros Hm Hk l. unfold try_except. specialize (Hm l).
  destruct (body l) as [[[a | e] l1] t1]; simpl in *; [done |].
  specialize (Hk e l1). destruct (handler e l1) as [[r l2] t2]; simpl in *.
  by apply Forall_app.
Qed.

Lemma emits_for {A} (xs : list A) (body : A → Py L unit) :
  (∀ x, emits P (body x)) → emits P (for_ xs body).
Proof.
  intros Hbody. induction xs as [| x xs IH]; simpl.
  - apply emits_ret.
  - apply emits_bind; [apply Hbody | intros _; apply IH].
Qed.
End Emits.

Lemma emits_lift {L A} (P : Event → Prop) (m : Py unit A) :
  emits P m → emits P (lift m : Py L A).
Proof.
  intros Hm l. unfold lift. specialize (Hm tt). by destruct (m tt) as [[r []] t].
Qed.

Lemma emits_with_local {L A} (P : Event → Prop) (init : L) (m : Py L A) :
  emits P m → emits P (with_local init m).
Proof.
  intros Hm l. unfold with_local. specialize (Hm init).
  by destruct (m init) as [[r l'] t].
Qed.

Lemma emits_trace {A} (P : Event → Prop) (m : Py unit A) :
  emits P m → Forall P (trace m).
Proof.
  intros Hm. unfold trace, run. specialize (Hm tt). by destruct (m tt) as [[r []] t].
Qed.

(** One step towards [emits P m], by the shape of [m]. *)
Ltac emits_step :=
  match goal with
  | |- emits _ (bind _ _) => apply emits_bind; [| intros ?]
  | |- emits _ (try_except _ _) => apply emits_try_except; [| intros ?]
  | |- emits _ (for_ _ _) => apply emits_for; intros ?
  | |- emits _ (lift _) => apply emits_lift
  | |- emits _ (with_local _ _) => apply emits_with_local
  | |- emits _ (ret _) => apply emits_ret
  | |- emits _ (answer _) => apply emits_answer
  | |- emits _ get_local => apply emits_get_local
  | |- emits _ (set_local _) => apply emits_set_local
  | |- emits _ (effect _ _) => apply emits_effect; reflexivity
  | |- emits _ (emit _) => intros ?; repeat constructor
  | |- emits _ (match ?x with _ => _ end) => destruct x
  | |- emits _ (if ?b then _ else _) => destruct b
  end.

Lemma calls_of_local (t : list Event) :
  Forall (λ ev, local_event ev = true) t → calls_of t = [].
Proof.
  induction 1 as [| ev t Hev _ IH]; [done |].
  unfold calls_of. simpl. by destruct ev.
Qed.

Lemma extract_part_info_local (E : Env) (item : Node E) :
  emits (λ ev, local_event ev = true) (_extract_part_info E item).
Proof.
  unfold _extract_part_info, read_part_info, set_text, or_node, find, get_text, logger.
  repeat emits_step.
Qed.

Lemma offer_record_local (E : Env) (item : Node E) :
  emits (λ ev, local_event ev = true) (offer_record E item).
Proof.
  unfold offer_record, set_offer_text, find, get_text.
  repeat emits_step.
Qed.

Lemma parse_parts_local (E : Env) (soup : Node E) :
  emits (λ ev, local_event ev = true) (_parse_parts_from_html E soup).
Proof.
  unfold _parse_parts_from_html, part_items, or_list, find_all, logger, keep_part.
  repeat first [apply extract_part_info_local | emits_step].
Qed.

Lemma parse_details_local (E : Env) (soup : Node E) (article : pystr) :
  emits (λ ev, local_event ev = true) (_parse_part_details E soup article).
Proof.
  unfold _parse_part_details, offers, or_list, find_all, logger, keep_offer.
  repeat first [apply offer_record_local | emits_step].
Qed.

(** *** [decode_vin]: every way out *)

Lemma calls_of_app (t1 t2 : list Event) : calls_of (t1 ++ t2) = calls_of t1 ++ calls_of t2.
Proof. apply omap_app. Qed.

Lemma calls_of_call (c : Call) (t : list Event) :
  calls_of (Called c :: t) = c :: calls_of t.
Proof. reflexivity. Qed.

(** [decode_vin] returns a dict on every input; the dict is tagged with the
    VIN; it has the key [error] or the key [vehicle_info], never both; and
    the run issues at most one request, the GET of the decoder, none at all
    only when the format check fails. *)
Lemma decode_vin_outcome (E : Env) (self : EmexVINParser) (vin_code : pystr) :
  ∃ r t, decode_vin E self vin_code tt = (Return r, tt, t)
         ∧ r !! "vin" = Some (VStr vin_code)
         ∧ (is_Some (r !! "error") ↔ r !! "vehicle_info" = None)
         ∧ (calls_of t = [] ∧ is_Some (r !! "error")
            ∨ calls_of t = [RequestsGet (nhtsa_url vin_code) 10]).
Proof.
  unfold decode_vin, try_except, bind, requests_get, response_json, answer, effect, logger,
    emit, ret.
  destruct (negb (truthy_str vin_code) || negb (Nat.eqb (length vin_code) 17)).
  { eexists _, _. split; [done |]. split; [done |]. split; [| left; split; [done |]];
      [split; [done | intros _] |]; by eexists. }
  destruct (http E _) as [response | e].
  - destruct (status_code response =? 200).
    + destruct (json response) as [data | e]; eexists _, _;
        (split; [done |]); (split; [done |]); (split; [| by right]).
      * split; [by intros [? ?] | done].
      * split; [done | intros _; by eexists].
    + eexists _, _. split; [done |]. split; [done |]. split; [| by right].
      split; [done | intros _; by eexists].
  - eexists _, _. split; [done |]. split; [done |]. split; [| by right].
    split; [done | intros _; by eexists].
Qed.


(** X2. When the request of [decode_vin] raises, or the body of a status
    200 response is not JSON ([json()] raises), the result is the error dict
    with [str(e)] and the VIN; the run is the one request followed by one
    ERROR line: no retry. *)
Theorem decode_vin_reports_the_exception (E : Env) (self : EmexVINParser)
    (vin_code : pystr) (e : Exn) :
  length vin_code = 17%nat →
  http E (RequestsGet (nhtsa_url vin_code) 10) = Raise e
  ∨ (∃ response, http E (RequestsGet (nhtsa_url vin_code) 10) = Return response
                 ∧ status_code response = 200 ∧ json response = Raise e) →
  run (decode_vin E self vin_code)
  = (Return {[ "error" := VStr (str_exn e); "vin" := VStr vin_code ]},
     [ Called (RequestsGet (nhtsa_url vin_code) 10);
       Logged ERROR (u "Ошибка при декодировании VIN: " ++ str_exn e) ]).
Proof.
  intros Hlen Hfail.
  assert (Hcond : negb (truthy_str vin_code) || negb (Nat.eqb (length vin_code) 17) = false).
  { rewrite Hlen. by destruct vin_code. }
  unfold run, decode_vin, try_except, bind, requests_get, response_json, answer, effect,
    logger, emit, ret.
  rewrite Hcond.
  destruct Hfail as [-> | (response & -> & -> & Hjson)]; [done |].
  simpl. by rewrite Hjson.
Qed.

Lemma decode_vin_reports_the_exception_witness :
  run (decode_vin (Fixture.env Fixture.offline) Fixture.a_parser Fixture.a_vin)
  = (Return {[ "error" := VStr (u "connection refused"); "vin" := VStr Fixture.a_vin ]},
     [ Called (RequestsGet (nhtsa_url Fixture.a_vin) 10);
       Logged ERROR (u "Ошибка при декодировании VIN: connection refused") ])
  ∧ value (decode_vin (Fixture.env (Fixture.answering (Scenario.not_json 200)))
             Fixture.a_parser Fixture.a_vin)
    = Return {[ "error" := VStr (u "Expecting value"); "vin" := VStr Fixture.a_vin ]}.
Proof.
  split.
  - apply (decode_vin_reports_the_exception (Fixture.env Fixture.offline)
             Fixture.a_parser Fixture.a_vin (Exception (u "connection refused")));
      [reflexivity | left; reflexivity].
  - unfold value.
    rewrite (decode_vin_reports_the_exception
               (Fixture.env (Fixture.answering (Scenario.not_json 200)))
               Fixture.a_parser Fixture.a_vin (Exception (u "Expecting value")));
      [reflexivity | reflexivity |].
    right. exists (Scenario.not_json 200). repeat split; reflexivity.
Defined.

(** The attributes are empty exactly when no pair has a non-empty value. *)
Lemma fill_vehicle_info_empty (results : list Item) :
  fill_vehicle_info results = ∅
  ↔ Forall (λ item, truthy_opt (Value_ item) = false) results.
Proof.
  induction results as [| item results IH] using rev_ind; [done |].
  rewrite fill_vehicle_info_snoc, Forall_app, Forall_singleton, <- IH.
  destruct (Value_ item) as [v |]; simpl; [| tauto].
  destruct (truthy_str v); [| tauto].
  split; [intros H; by apply insert_non_empty in H | by intros [_ ?]].
Qed.

(** The variables of the attributes are variables of the pairs, so there
    are no more attributes than pairs. *)
Lemma fill_vehicle_info_dom (results : list Item) :
  dom (fill_vehicle_info results) ⊆ list_to_set (Variable_ <$> results).
Proof.
  intros k Hk. apply elem_of_dom in Hk as [v Hv].
  destruct (fill_vehicle_info_sound results k v Hv) as (_ & item & Hin & <- & _).
  apply elem_of_list_to_set, list_elem_of_fmap. eauto.
Qed.

(** X3. For a status 200 response whose JSON body lacks [Results], or has
    only pairs with an empty or absent value, [decode_vin] still succeeds:
    it returns [decoded: True] with an empty [vehicle_info], not an error. *)
Theorem decode_vin_without_values (E : Env) (self : EmexVINParser)
    (vin_code : pystr) (response : Response) (data : Payload) :
  length vin_code = 17%nat →
  http E (RequestsGet (nhtsa_url vin_code) 10) = Return response →
  status_code response = 200 →
  json response = Return data →
  Results data = None
  ∨ (∃ results, Results data = Some results
                ∧ Forall (λ item, truthy_opt (Value_ item) = false) results) →
  value (decode_vin E self vin_code)
  = Return {[ "vin" := VStr vin_code; "vehicle_info" := VInfo ∅;
              "decoded" := VBool true ]}.
Proof.
  intros Hlen Hhttp Hstatus Hjson Hempty.
  assert (Hfill : fill_vehicle_info (default [] (Results data)) = ∅).
  { destruct Hempty as [-> | (results & -> & Hall)]; [done |].
    by apply fill_vehicle_info_empty. }
  rewrite (decode_vin_answered E self vin_code response Hlen Hhttp), Hstatus, Hjson.
  simpl. by rewrite Hfill.
Qed.

Lemma decode_vin_without_values_witness :
  value (decode_vin
           (Fixture.env (Fixture.answering
              (Fixture.json_response 200 [Fixture.pair "Model" EmptyString])))
           Fixture.a_parser Fixture.a_vin)
  = Return {[ "vin" := VStr Fixture.a_vin; "vehicle_info" := VInfo ∅;
              "decoded" := VBool true ]}.
Proof.
  apply (decode_vin_without_values _ _ _
           (Fixture.json_response 200 [Fixture.pair "Model" EmptyString])
           {| Results := Some [Fixture.pair "Model" EmptyString] |});
    try reflexivity.
  right. eexists. split; [reflexivity |]. by repeat constructor.
Defined.

Lemma fill_vehicle_info_size (results : list Item) :
  (size (fill_vehicle_info results) ≤ length results)%nat.
Proof.
  induction results as [| item results IH] using rev_ind; [done |].
  rewrite fill_vehicle_info_snoc, length_app, Nat.add_1_r.
  destruct (Value_ item) as [v |]; [| lia].
  destruct (truthy_str v); [| lia].
  rewrite map_size_insert. destruct (_ !! _); simpl; lia.
Qed.

(** X4. The attributes of a decode are never more numerous than the pairs
    of the response, and each of their variables is the variable of a
    pair. *)
Theorem vehicle_info_is_bounded_by_the_pairs (results : list Item) :
  dom (fill_vehicle_info results) ⊆ list_to_set (Variable_ <$> results)
  ∧ (size (fill_vehicle_info results) ≤ length results)%nat.
Proof. split; [apply fill_vehicle_info_dom | apply fill_vehicle_info_size]. Qed.

(** *** [search_parts_by_vin]: every way out *)

Lemma parse_parts_run (E : Env) (soup : Node E) :
  ∃ parts t, _parse_parts_from_html E soup tt = (Return parts, tt, t)
             ∧ calls_of t = [].
Proof.
  destruct (parse_parts_returns E soup) as (parts & t & Hrun).
  exists parts, t. split; [done |].
  apply calls_of_local. pose proof (parse_parts_local E soup tt) as Hlocal.
  by rewrite Hrun in Hlocal.
Qed.

Lemma search_outcome (E : Env) (self : EmexVINParser) (vin_code : pystr)
    (part_name : option pystr) :
  ∃ r t, search_parts_by_vin E self vin_code part_name tt = (Return r, tt, t)
         ∧ r !! "vin" = Some (VStr vin_code)
         ∧ (calls_of t = []
            ∨ calls_of t = [RequestsGet (nhtsa_url vin_code) 10]
            ∨ calls_of t = [RequestsGet (nhtsa_url vin_code) 10;
                            SessionGet (session self)
                              (search_url self vin_code part_name) 30]).
Proof.
  destruct (decode_vin_outcome E self vin_code) as (r0 & t0 & Hd & Hvin & _ & Hcalls).
  unfold search_parts_by_vin, try_except, bind. rewrite Hd.
  destruct (bool_decide (is_Some (r0 !! "error"))) eqn:Herr.
  { exists r0, (t0 ++ []). split; [done |]. split; [done |].
    rewrite app_nil_r. destruct Hcalls as [[-> _] | ->]; auto. }
  assert (Ht0 : calls_of t0 = [RequestsGet (nhtsa_url vin_code) 10]).
  { destruct Hcalls as [[_ Hsome] | ->]; [| done].
    by apply bool_decide_eq_false in Herr. }
  unfold session_get, effect, logger, emit, ret.
  destruct (http E _) as [page | e].
  - destruct (status_code page =? 200); simpl.
    + destruct (parse_parts_run E (BeautifulSoup E (text page)))
        as (parts & tp & -> & Htp).
      eexists _, _. split; [done |]. split; [done |].
      rewrite app_nil_r, calls_of_app, Ht0, calls_of_call, Htp. simpl. auto.
    + eexists _, _. split; [done |]. split; [done |].
      rewrite !calls_of_app, Ht0. simpl. auto.
  - eexists _, _. split; [done |]. split; [done |].
    rewrite !calls_of_app, Ht0. simpl. auto.
Qed.

(** X5. [search_parts_by_vin] never raises: on every input it returns a
    dict tagged with the VIN.  Its requests are, in this order and each at
    most once, the GET of the decoder and the GET of the search page of the
    shop (timeout 30): the page is never fetched before the decode, and
    nothing is retried. *)
Theorem search_always_answers (E : Env) (self : EmexVINParser) (vin_code : pystr)
    (part_name : option pystr) :
  ∃ r t, run (search_parts_by_vin E self vin_code part_name) = (Return r, t)
         ∧ r !! "vin" = Some (VStr vin_code)
         ∧ (calls_of t = []
            ∨ calls_of t = [RequestsGet (nhtsa_url vin_code) 10]
            ∨ calls_of t = [RequestsGet (nhtsa_url vin_code) 10;
                            SessionGet (session self)
                              (search_url self vin_code part_name) 30]).
Proof.
  destruct (search_outcome E self vin_code part_name) as (r & t & Hrun & H).
  exists r, t. split; [| exact H]. unfold run. by rewrite Hrun.
Qed.

(** X6. When the decode has succeeded and the fetch of the search page
    raises, [search_parts_by_vin] returns the error dict with [str(e)] and
    the VIN, and logs one ERROR line after the failed request: the decoded
    attributes are not returned. *)
Theorem search_reports_a_failed_fetch (E : Env) (self : EmexVINParser)
    (vin_code : pystr) (part_name : option pystr) (vin_info : Envelope) (e : Exn) :
  value (decode_vin E self vin_code) = Return vin_info →
  vin_info !! "error" = None →
  http E (SessionGet (session self) (search_url self vin_code part_name) 30) = Raise e →
  run (search_parts_by_vin E self vin_code part_name)
  = (Return {[ "error" := VStr (str_exn e); "vin" := VStr vin_code ]},
     trace (decode_vin E self vin_code)
     ++ [ Called (SessionGet (session self) (search_url self vin_code part_name) 30);
          Logged ERROR (u "Ошибка при поиске запчастей: " ++ str_exn e) ]).
Proof.
  intros Hdecode Hok Hhttp.
  unfold run, search_parts_by_vin, try_except, bind.
  rewrite run_eta, Hdecode.
  rewrite bool_decide_eq_false_2 by (rewrite Hok; by intros [? ?]).
  unfold session_get, effect. rewrite Hhttp. simpl.
  by rewrite <- app_assoc.
Qed.

Lemma search_reports_a_failed_fetch_witness :
  value (search_parts_by_vin (Fixture.env (Scenario.shop_down Scenario.toyota))
           Fixture.a_parser Fixture.a_vin None)
  = Return {[ "error" := VStr (u "connection refused"); "vin" := VStr Fixture.a_vin ]}.
Proof.
  unfold value.
  rewrite (search_reports_a_failed_fetch
             (Fixture.env (Scenario.shop_down Scenario.toyota))
             Fixture.a_parser Fixture.a_vin None
             {[ "vin" := VStr Fixture.a_vin;
                "vehicle_info" := VInfo {[ Some (u "Make") := u "Toyota" ]};
                "decoded" := VBool true ]}
             (Exception (u "connection refused"))); reflexivity.
Defined.

(** X7. End to end: for a well-formed VIN, a decoder answering 200 with a
    JSON body and a shop answering 200, [search_parts_by_vin] returns the
    VIN, the attributes built from the pairs of the decoder, the records of
    the candidates of the page in document order, their count as
    [total_parts], and the timestamp. *)
Theorem search_composes_decode_and_extraction (E : Env) (self : EmexVINParser)
    (vin_code : pystr) (part_name : option pystr) (decoded page : Response)
    (data : Payload) (items : list (Node E)) :
  length vin_code = 17%nat →
  http E (RequestsGet (nhtsa_url vin_code) 10) = Return decoded →
  status_code decoded = 200 →
  json decoded = Return data →
  http E (SessionGet (session self) (search_url self vin_code part_name) 30) = Return page →
  status_code page = 200 →
  value (part_items E (BeautifulSoup E (text page))) = Return items →
  value (search_parts_by_vin E self vin_code part_name)
  = Return {[ "vin" := VStr vin_code;
              "vehicle_info" := VInfo (fill_vehicle_info (default [] (Results data)));
              "parts" := VParts (omap (part_of E) items);
              "total_parts" := VInt (Z.of_nat (length (omap (part_of E) items)));
              "timestamp" := VStr (isoformat_now E) ]}.
Proof.
  intros Hlen Hdecoded Hstatus Hjson Hpage Hstatus' Hitems.
  pose proof (decode_vin_answered E self vin_code decoded Hlen Hdecoded) as Hvalue.
  rewrite Hstatus, Hjson in Hvalue. simpl in Hvalue.
  destruct (search_answered E self vin_code part_name _ page Hvalue eq_refl Hpage)
    as (parts & Hparts & ->).
  rewrite (parse_parts_value E _ items Hitems) in Hparts.
  injection Hparts as <-. by rewrite Hstatus'.
Qed.

Lemma search_composes_decode_and_extraction_witness :
  value (search_parts_by_vin
           (Fixture.env (Fixture.serving Scenario.toyota
                           (Fixture.page_response 200 "hollow")))
           Fixture.a_parser Fixture.a_vin None)
  = Return {[ "vin" := VStr Fixture.a_vin;
              "vehicle_info" := VInfo {[ Some (u "Make") := u "Toyota" ]};
              "parts" := VParts [ {[ "article" := [] ]} ];
              "total_parts" := VInt 1;
              "timestamp" := VStr (u "2024-01-01T00:00:00") ]}.
Proof.
  rewrite (search_composes_decode_and_extraction
             (Fixture.env (Fixture.serving Scenario.toyota
                             (Fixture.page_response 200 "hollow")))
             Fixture.a_parser Fixture.a_vin None Scenario.toyota
             (Fixture.page_response 200 "hollow")
             {| Results := Some [Fixture.pair "Make" "Toyota"] |}
             [ Fixture.div "part-item" [Fixture.span "article" EmptyString];
               Fixture.div "part-item" [Fixture.span "unrelated" "x"] ]);
    reflexivity.
Defined.

(** *** [get_part_details]: every way out *)

Lemma parse_details_run (E : Env) (soup : Node E) (article : pystr) :
  ∃ offer_list t,
    _parse_part_details E soup article tt = (Return (details_dict article offer_list), tt, t)
    ∧ calls_of t = [].
Proof.
  destruct (parse_details_returns E soup article) as (offer_list & Hvalue).
  exists offer_list, (trace (_parse_part_details E soup article)).
  split; [by rewrite run_eta, Hvalue |].
  apply calls_of_local, emits_trace, parse_details_local.
Qed.

Lemma part_details_outcome (E : Env) (self : EmexVINParser) (article : pystr) :
  ∃ r t, get_part_details E self article tt = (Return r, tt, t)
         ∧ r !! "article" = Some (VStr article)
         ∧ calls_of t = [SessionGet (session self) (article_url self article) 30].
Proof.
  unfold get_part_details, try_except, bind, session_get, effect, logger, emit, ret.
  destruct (http E _) as [page | e].
  - destruct (negb (status_code page =? 200)).
    + eexists _, _. split; [done |]. split; done.
    + destruct (parse_details_run E (BeautifulSoup E (text page)) article)
        as (offer_list & t & -> & Ht).
      eexists _, _. split; [done |]. split; [done |].
      by rewrite app_nil_r, calls_of_app, Ht.
  - eexists _, _. split; [done |]. split; done.
Qed.

(** X8. [get_part_details] never raises: on every input it returns a dict
    tagged with the article, and it issues exactly one request, the GET of
    the article page of the shop with a timeout of 30. *)
Theorem part_details_always_answers (E : Env) (self : EmexVINParser) (article : pystr) :
  ∃ r t, run (get_part_details E self article) = (Return r, t)
         ∧ r !! "article" = Some (VStr article)
         ∧ calls_of t = [SessionGet (session self) (article_url self article) 30].
Proof.
  destruct (part_details_outcome E self article) as (r & t & Hrun & H).
  exists r, t. split; [| exact H]. unfold run. by rewrite Hrun.
Qed.

(** X9. [get_part_details] turns a failure of the fetch into an error dict
    tagged with the article: for a status other than 200 the message ends
    with the status code and nothing is logged; when the request raises the
    message is [str(e)] and one ERROR line is logged. *)
Theorem part_details_reports_a_failed_fetch (E : Env) (self : EmexVINParser)
    (article : pystr) :
  (∀ page,
     http E (SessionGet (session self) (article_url self article) 30) = Return page →
     status_code page ≠ 200 →
     run (get_part_details E self article)
     = (Return {[ "error" := VStr (u "Ошибка при запросе: " ++ str_int (status_code page));
                  "article" := VStr article ]},
        [ Called (SessionGet (session self) (article_url self article) 30) ]))
  ∧ (∀ e,
       http E (SessionGet (session self) (article_url self article) 30) = Raise e →
       run (get_part_details E self article)
       = (Return {[ "error" := VStr (str_exn e); "article" := VStr article ]},
          [ Called (SessionGet (session self) (article_url self article) 30);
            Logged ERROR (u "Ошибка при получении деталей запчасти: " ++ str_exn e) ])).
Proof.
  split.
  - intros page Hhttp Hstatus. apply Z.eqb_neq in Hstatus.
    unfold run, get_part_details, try_except, bind, session_get, effect.
    by rewrite Hhttp, Hstatus.
  - intros e Hhttp.
    unfold run, get_part_details, try_except, bind, session_get, effect.
    by rewrite Hhttp.
Qed.

Lemma part_details_reports_a_failed_fetch_witness :
  value (get_part_details (Fixture.env (Fixture.answering (Fixture.page_response 503 "offers")))
           Fixture.a_parser (u "A-1"))
  = Return {[ "error" := VStr (u "Ошибка при запросе: 503"); "article" := VStr (u "A-1") ]}
  ∧ value (get_part_details (Fixture.env Fixture.offline) Fixture.a_parser (u "A-1"))
    = Return {[ "error" := VStr (u "connection refused"); "article" := VStr (u "A-1") ]}.
Proof.
  split.
  - destruct (part_details_reports_a_failed_fetch
                (Fixture.env (Fixture.answering (Fixture.page_response 503 "offers")))
                Fixture.a_parser (u "A-1")) as [Hstatus _].
    unfold value.
    rewrite (Hstatus (Fixture.page_response 503 "offers")); [reflexivity .. | discriminate].
  - destruct (part_details_reports_a_failed_fetch (Fixture.env Fixture.offline)
                Fixture.a_parser (u "A-1")) as [_ Hraise].
    unfold value.
    rewrite (Hraise (Exception (u "connection refused"))); reflexivity.
Defined.

(** X10. End to end: when the shop answers 200 and building the offer of no
    candidate raises, [get_part_details] returns the article and the offers
    of the candidates, in document order, each one passing
    [any(offer_data.values())]. *)
Theorem part_details_composes_fetch_and_extraction (E : Env) (self : EmexVINParser)
    (article : pystr) (page : Response) (items : list (Node E)) :
  http E (SessionGet (session self) (article_url self article) 30) = Return page →
  status_code page = 200 →
  value (offers E (BeautifulSoup E (text page))) = Return items →
  Forall (well_formed E) items →
  value (get_part_details E self article)
  = Return {[ "article" := VStr article;
              "offers" := VOffers (omap (offer_of E) items) ]}.
Proof.
  intros Hhttp Hstatus Hitems Hall.
  assert (Hs : negb (status_code page =? 200) = false) by by rewrite Hstatus.
  unfold value at 1, run, get_part_details, try_except, bind at 1, session_get, effect.
  rewrite Hhttp, Hs. unfold bind.
  by rewrite run_eta, (parse_details_value E _ article items Hitems Hall).
Qed.

Lemma part_details_composes_fetch_and_extraction_witness :
  value (get_part_details (Fixture.env (Fixture.answering (Fixture.page_response 200 "offers")))
           Fixture.a_parser (u "A-1"))
  = Return {[ "article" := VStr (u "A-1");
              "offers" := VOffers
                [ <["price" := Some (u "100")]> offer_data0;
                  <["availability" := Some []]>
                    (<["price" := Some (u "7")]> offer_data0) ] ]}.
Proof.
  rewrite (part_details_composes_fetch_and_extraction
             (Fixture.env (Fixture.answering (Fixture.page_response 200 "offers")))
             Fixture.a_parser (u "A-1") (Fixture.page_response 200 "offers")
             [ Fixture.div "offer-item" [Fixture.span "price" "100"];
               Fixture.div "offer-item" [Fixture.span "unrelated" "x"];
               Fixture.div "offer-item" [Fixture.span "price" EmptyString];
               Fixture.div "offer-item"
                 [Fixture.span "price" "7"; Fixture.span "availability" " "] ]);
    try reflexivity.
  repeat constructor; eexists; reflexivity.
Defined.

(** *** When the search for candidates raises *)

(** X11. When a strategy raises while the candidates are located (the
    strategies before it having found nothing), the extraction does not
    raise: the listings mode returns the empty list and the offers mode the
    dict with an empty list of offers; the strategies after the failing one
    are not consulted, and one ERROR line is logged (and, in the listings
    mode, not the INFO line of an empty result). *)
Theorem a_failed_search_gives_an_empty_result (E : Env) (mode : Mode) (soup : Node E)
    (article : pystr) (pre post : list Selector) (s : Selector) (e : Exn) :
  strategies mode = pre ++ s :: post →
  Forall (λ s', lib_find_all E soup s' = Return []) pre →
  lib_find_all E soup s = Raise e →
  match mode with
  | Listings =>
      run (_parse_parts_from_html E soup)
      = (Return [],
         map (λ s', Probed (FindAll s')) (pre ++ [s])
         ++ [Logged ERROR (u "Ошибка при парсинге HTML: " ++ str_exn e)])
  | Offers =>
      run (_parse_part_details E soup article)
      = (Return (details_dict article []),
         map (λ s', Probed (FindAll s')) (pre ++ [s])
         ++ [Logged ERROR (u "Ошибка при парсинге деталей: " ++ str_exn e)])
  end.
Proof.
  intros Hsplit Hpre Hs.
  destruct mode; simpl in Hsplit;
    (destruct pre as [| a [| b [| c pre]]]; simpl in Hsplit; simplify_eq;
     try (by destruct pre));
    repeat match goal with H : Forall _ (_ :: _) |- _ => inversion_clear H end;
    unfold run, _parse_parts_from_html, _parse_part_details, with_local, try_except,
      part_items, offers, or_list, find_all, effect, bind, lift, logger, emit;
    repeat match goal with H : lib_find_all _ _ _ = _ |- _ => rewrite H; clear H end;
    reflexivity.
Qed.

Lemma a_failed_search_gives_an_empty_result_witness :
  run (_parse_parts_from_html (Fixture.env Fixture.offline) Scenario.unsearchable_page)
  = (Return [],
     [ Probed (FindAll (tag_class "div" "part-item"));
       Logged ERROR (u "Ошибка при парсинге HTML: recursion limit") ]).
Proof.
  apply (a_failed_search_gives_an_empty_result (Fixture.env Fixture.offline) Listings
           Scenario.unsearchable_page [] []
           [tag_class "tr" "search-row"; tag_attr "div" "data-type" "part"]
           (tag_class "div" "part-item") (Exception (u "recursion limit")));
    [reflexivity | constructor | reflexivity].
Defined.

(** *** The fields of a record *)

(** What storing readings leaves under each key. *)
Lemma store_lookup {V} (inj : pystr → V) (readings : list (string * Outcome (option pystr)))
    (acc m : gmap string V) :
  NoDup readings.*1 →
  store inj readings acc = Return m →
  (∀ k o, (k, o) ∈ readings →
          ∃ r, o = Return r
               ∧ m !! k = match r with Some t => Some (inj t) | None => acc !! k end)
  ∧ (∀ k, k ∉ readings.*1 → m !! k = acc !! k).
Proof.
  revert acc. induction readings as [| [k1 o1] readings IH]; intros acc Hnodup Hstore.
  { simpl in Hstore. injection Hstore as <-. split; [| done].
    intros k o Hin. by apply elem_of_nil in Hin. }
  apply NoDup_cons in Hnodup as [Hfresh Hnodup]. simpl in Hfresh.
  assert (Hrest : ∃ acc' r1, o1 = Return r1
                             ∧ store inj readings acc' = Return m
                             ∧ acc' !! k1 = match r1 with
                                            | Some t => Some (inj t)
                                            | None => acc !! k1
                                            end
                             ∧ ∀ k, k ≠ k1 → acc' !! k = acc !! k).
  { simpl in Hstore. destruct o1 as [[t |] | e]; [| | done].
    - exists (<[k1 := inj t]> acc), (Some t).
      split; [done |]. split; [done |]. split; [by rewrite lookup_insert_eq |].
      intros k Hk. by rewrite lookup_insert_ne.
    - exists acc, None. eauto. }
  destruct Hrest as (acc' & r1 & -> & Hstore' & Hk1 & Hother).
  destruct (IH acc' Hnodup Hstore') as [Hin Hout].
  split.
  - intros k o Hk. apply elem_of_cons in Hk as [[= -> ->] | Hk].
    + exists r1. split; [done |]. by rewrite (Hout k1 Hfresh).
    + destruct (Hin k o Hk) as (r & -> & Hm). exists r. split; [done |].
      rewrite Hm. destruct r; [done |]. apply Hother.
      intros ->. apply Hfresh. apply list_elem_of_fmap. by exists (k1, Return None).
  - intros k Hk. simpl in Hk. apply not_elem_of_cons in Hk as [Hne Hk].
    rewrite (Hout k Hk). by apply Hother.
Qed.

Lemma value_with_local {L A} (init : L) (m : Py L A) :
  value (with_local init m) = (m init).1.1.
Proof. unfold value, run, with_local. by destruct (m init) as [[r l] t]. Qed.

(** One field block of [_extract_part_info], followed by the rest. *)
Lemma part_block (E : Env) (item : Node E) (key : string) (s1 s2 : Selector) {A}
    (k : Py PartListing A) (l : PartListing) :
  (bind (lift (or_node (find E item s1) (find E item s2)))
        (λ node, bind (set_text E key node) (λ _, k)) l).1.1
  = match text_of E (found E item s1 s2) with
    | Return (Some t) => (k (<[key := t]> l)).1.1
    | Return None => (k l).1.1
    | Raise e => Raise e
    end.
Proof.
  unfold bind, lift, or_node, find, effect, set_text, get_text, get_local, set_local,
    text_of, found, ret, bind.
  destruct (lib_find E item s1) as [[n1 |] | e1]; simpl.
  - destruct (lib_get_text E n1); simpl; [| done].
    by destruct (k _) as [[r l2] t2].
  - destruct (lib_find E item s2) as [[n2 |] | e2]; simpl.
    + destruct (lib_get_text E n2); simpl; [| done].
      by destruct (k _) as [[r l2] t2].
    + by destruct (k _) as [[r l2] t2].
    + done.
  - done.
Qed.

(** [_extract_part_info] stores the readings of the six fields in order. *)
Lemma read_part_info_stores (E : Env) (item : Node E) :
  value (read_part_info E item)
  = match store id (part_readings E item) ∅ with
    | Return m => Return (if bool_decide (m = ∅) then None else Some m)
    | Raise e => Raise e
    end.
Proof.
  unfold read_part_info. rewrite value_with_local.
  unfold part_readings, part_fields. cbn [map store].
  repeat (rewrite part_block; cbn [store];
          match goal with
          | |- context [text_of E ?x] => destruct (text_of E x) as [[? |] | ?]
          end; [| | reflexivity]);
    reflexivity.
Qed.

Lemma part_readings_keys (E : Env) (item : Node E) :
  (part_readings E item).*1 = part_fields.*1.*1.
Proof. reflexivity. Qed.

Lemma part_keys_nodup : NoDup part_fields.*1.*1.
Proof. apply (bool_decide_unpack _). reflexivity. Qed.

(** X12. A record returned by [_extract_part_info] is never empty; its keys
    are among the six field names; and for each field its search and its
    reading raised nothing and the record holds under the field's key
    exactly the text read from the element found, the first selector having
    priority over the fallback, and no such key when none was found. *)
Theorem listing_holds_what_was_found (E : Env) (item : Node E) (d : PartListing) :
  value (_extract_part_info E item) = Return (Some d) →
  d ≠ ∅
  ∧ (∀ k, is_Some (d !! k) → k ∈ part_fields.*1.*1)
  ∧ (∀ k s1 s2, (k, s1, s2) ∈ part_fields →
                ∃ r, text_of E (found E item s1 s2) = Return r ∧ d !! k = r).
Proof.
  intros Hvalue.
  assert (Hread : value (read_part_info E item) = Return (Some d)).
  { unfold value, run, _extract_part_info, try_except in Hvalue.
    unfold value, run.
    destruct (read_part_info E item tt) as [[[r | e] []] t]; simpl in *; [done |].
    discriminate Hvalue. }
  rewrite read_part_info_stores in Hread.
  destruct (store id (part_readings E item) ∅) as [m | e] eqn:Hstore; [| done].
  destruct (bool_decide (m = ∅)) eqn:Hm; [done |]. injection Hread as <-.
  apply bool_decide_eq_false in Hm.
  destruct (store_lookup id _ ∅ m
              ltac:(rewrite part_readings_keys; apply part_keys_nodup) Hstore)
    as [Hin Hout].
  split; [done |]. split.
  - intros k Hk. destruct (decide (k ∈ part_fields.*1.*1)) as [| Hnot]; [done |].
    rewrite <- (part_readings_keys E item) in Hnot. rewrite (Hout k Hnot) in Hk.
    by destruct Hk.
  - intros k s1 s2 Hk.
    destruct (Hin k (text_of E (found E item s1 s2))) as (r & Hr & Hlook).
    { unfold part_readings. apply list_elem_of_fmap. by exists (k, s1, s2). }
    exists r. split; [done |]. rewrite Hlook. by destruct r.
Qed.

Lemma listing_holds_what_was_found_witness :
  text_of (Fixture.env Fixture.offline)
    (found (Fixture.env Fixture.offline)
       (Fixture.div "part-item" [Fixture.span "price" " 100 "])
       (by_class "price") (tag_attr "td" "data-title" "Цена"))
  = Return (({[ "price" := u "100" ]} : PartListing) !! "price").
Proof.
  destruct (listing_holds_what_was_found (Fixture.env Fixture.offline)
              (Fixture.div "part-item" [Fixture.span "price" " 100 "])
              {[ "price" := u "100" ]}) as (_ & _ & Hfields); [reflexivity |].
  destruct (Hfields "price" (by_class "price") (tag_attr "td" "data-title" "Цена"))
    as (r & Hr & <-); [| exact Hr].
  unfold part_fields. repeat constructor.
Defined.

(** One field block of the offers loop, followed by the rest. *)
Lemma offer_block (E : Env) (item : Node E) (key : string) (s : Selector) {A}
    (k : Py Offer A) (l : Offer) :
  (bind (lift (find E item s))
        (λ node, bind (set_offer_text E key node) (λ _, k)) l).1.1
  = match text_of E (lib_find E item s) with
    | Return (Some t) => (k (<[key := Some t]> l)).1.1
    | Return None => (k l).1.1
    | Raise e => Raise e
    end.
Proof.
  unfold bind, lift, find, effect, set_offer_text, get_text, get_local, set_local,
    text_of, ret, bind.
  destruct (lib_find E item s) as [[n |] | e]; simpl.
  - destruct (lib_get_text E n); simpl; [| done].
    by destruct (k _) as [[r l2] t2].
  - by destruct (k _) as [[r l2] t2].
  - done.
Qed.

Lemma offer_record_stores (E : Env) (item : Node E) :
  value (offer_record E item) = store Some (offer_readings E item) offer_data0.
Proof.
  unfold offer_record. rewrite value_with_local.
  unfold offer_readings, offer_fields. cbn [map store].
  repeat (rewrite offer_block; cbn [store];
          match goal with
          | |- context [text_of E ?x] => destruct (text_of E x) as [[? |] | ?]
          end; [| | reflexivity]);
    reflexivity.
Qed.

Lemma offer_keys_nodup : NoDup offer_fields.*1.
Proof. apply (bool_decide_unpack _). reflexivity. Qed.

Lemma offer_data0_lookup (k : string) :
  offer_data0 !! k = if bool_decide (k ∈ offer_fields.*1) then Some None else None.
Proof.
  unfold offer_data0, offer_fields. simpl.
  destruct (decide (k = "price")) as [-> | H1]; [reflexivity |].
  destruct (decide (k = "availability")) as [-> | H2]; [reflexivity |].
  destruct (decide (k = "warehouse")) as [-> | H3]; [reflexivity |].
  destruct (decide (k = "delivery_time")) as [-> | H4]; [reflexivity |].
  rewrite !lookup_insert_ne, lookup_singleton_ne by done.
  rewrite bool_decide_eq_false_2; [done |].
  rewrite !elem_of_cons, elem_of_nil. by intros [? | [? | [? | [? | []]]]].
Qed.

(** X13. The [offer_data] built for a node has exactly the four keys
    [price], [availability], [warehouse] and [delivery_time]; under each it
    holds the text read from the element of that class, or [None] when no
    such element is found. *)
Theorem offer_has_its_four_keys (E : Env) (item : Node E) (d : Offer) :
  value (offer_record E item) = Return d →
  (∀ k, is_Some (d !! k) ↔ k ∈ offer_fields.*1)
  ∧ (∀ k s, (k, s) ∈ offer_fields →
            ∃ r, text_of E (lib_find E item s) = Return r ∧ d !! k = Some r).
Proof.
  intros Hvalue. rewrite offer_record_stores in Hvalue.
  assert (Hkeys : (offer_readings E item).*1 = offer_fields.*1) by reflexivity.
  destruct (store_lookup Some _ offer_data0 d
              ltac:(rewrite Hkeys; apply offer_keys_nodup) Hvalue) as [Hin Hout].
  assert (Hfield : ∀ k s, (k, s) ∈ offer_fields →
                          ∃ r, text_of E (lib_find E item s) = Return r ∧ d !! k = Some r).
  { intros k s Hk.
    destruct (Hin k (text_of E (lib_find E item s))) as (r & Hr & Hlook).
    { unfold offer_readings. apply list_elem_of_fmap. by exists (k, s). }
    exists r. split; [done |]. rewrite Hlook. destruct r; [done |].
    rewrite offer_data0_lookup, bool_decide_eq_true_2; [done |].
    apply list_elem_of_fmap. by exists (k, s). }
  split; [| exact Hfield].
  intros k. split.
  - intros Hsome. destruct (decide (k ∈ offer_fields.*1)) as [| Hnot]; [done |].
    rewrite <- Hkeys in Hnot. rewrite (Hout k Hnot), offer_data0_lookup in Hsome.
    rewrite Hkeys in Hnot. rewrite bool_decide_eq_false_2 in Hsome by done.
    by destruct Hsome.
  - intros Hk. apply list_elem_of_fmap in Hk as ([k' s] & -> & Hk).
    destruct (Hfield k' s Hk) as (r & _ & Hr). simpl. rewrite Hr. by eexists.
Qed.

Lemma offer_has_its_four_keys_witness :
  (<["price" := Some (u "100")]> offer_data0 : Offer) !! "warehouse" = Some None.
Proof.
  destruct (offer_has_its_four_keys (Fixture.env Fixture.offline)
              (Fixture.div "offer-item" [Fixture.span "price" "100"])
              (<["price" := Some (u "100")]> offer_data0)) as [_ Hfields];
    [reflexivity |].
  destruct (Hfields "warehouse" (by_class "warehouse")) as (r & Hr & ->).
  - unfold offer_fields. repeat constructor.
  - by injection Hr as <-.
Defined.

(** *** [authenticate], the endpoint and the routes *)

Lemma authenticate_outcome (E : Env) (self : EmexVINParser) :
  ∃ (b : bool) (t : list Event),
    authenticate E self = (Return b, (if b then set_authenticated self else self), t)
    ∧ (b = true ↔
       truthy (username self) = true ∧ truthy (password self) = true
       ∧ ∃ response, http E (login_call self) = Return response
                     ∧ status_code response = 200)
    ∧ calls_of t = (if truthy (username self) && truthy (password self)
                    then [login_call self] else []).
Proof.
  unfold authenticate, bind at 1, get_local.
  destruct (truthy (username self)) eqn:Hu; simpl.
  2: { exists false. eexists. split; [done |]. split; [| done].
       split; [done | by intros [? _]]. }
  destruct (truthy (password self)) eqn:Hp; simpl.
  2: { exists false. eexists. split; [done |]. split; [| done].
       split; [done | by intros [_ [? _]]]. }
  unfold try_except, bind, lift, session_post, effect, logger, emit, set_local, ret.
  fold (login_call self).
  destruct (http E (login_call self)) as [response | e]; simpl.
  - destruct (status_code response =? 200) eqn:Hs; simpl.
    + exists true. eexists. split; [done |]. split; [| done].
      split; [intros _ | done]. split; [done |]. split; [done |].
      exists response. split; [done |]. by apply Z.eqb_eq.
    + exists false. eexists. split; [done |]. split; [| done].
      split; [done |]. intros [_ [_ [r' [Heq Hr]]]]. injection Heq as <-.
      by apply Z.eqb_neq in Hs.
  - exists false. eexists. split; [done |]. split; [| done].
    split; [done |]. by intros [_ [_ [r' [? _]]]].
Qed.

(** X14. [authenticate] never raises.  It returns [True] exactly when both
    credentials are set and the login request is answered with status 200,
    and only then does it set [is_authenticated]; otherwise [self] is left
    as it was.  Without credentials no request is made; with them exactly
    one is, the POST of the login form with a timeout of 30. *)
Theorem authenticate_succeeds_only_on_200 (E : Env) (self : EmexVINParser) :
  ∃ (b : bool) (t : list Event),
    authenticate E self = (Return b, (if b then set_authenticated self else self), t)
    ∧ (b = true ↔
       truthy (username self) = true ∧ truthy (password self) = true
       ∧ ∃ response, http E (login_call self) = Return response
                     ∧ status_code response = 200)
    ∧ calls_of t = (if truthy (username self) && truthy (password self)
                    then [login_call self] else []).
Proof. apply authenticate_outcome. Qed.

(** X15. The authentication endpoint never raises and answers 200, 400 or
    500.  Unless it answers 200, the module-level [parser] is the one it
    was and nothing is emitted.  When it answers 200 the body was a JSON
    object with both credentials set, a session has been constructed, the
    module-level [parser] is a new one holding the posted credentials
    (whether or not the login succeeded), and the [authenticated] field of
    the answer is that parser's [is_authenticated]. *)
Theorem authenticate_endpoint_replaces_parser_on_200 (E : Env) (body : Outcome Body)
    (parser : EmexVINParser) :
  ∃ (r : Envelope) (status : Z) (parser' : EmexVINParser) (t : list Event),
    authenticate_endpoint E body parser = (Return (r, status), parser', t)
    ∧ (status = 200 ∨ status = 400 ∨ status = 500)
    ∧ (status ≠ 200 → parser' = parser ∧ t = [])
    ∧ (status = 200 →
       ∃ d, body = Return (BObject d)
            ∧ truthy (dict_get d "username") = true
            ∧ truthy (dict_get d "password") = true
            ∧ username parser' = dict_get d "username"
            ∧ password parser' = dict_get d "password"
            ∧ r !! "authenticated" = Some (VBool (is_authenticated parser'))
            ∧ ∃ t', t = SessionOpened :: t').
Proof.
  destruct body as [[d | ty] | e].
  - destruct (truthy (dict_get d "username")) eqn:Hu;
      [destruct (truthy (dict_get d "password")) eqn:Hp |].
    + set (np := {| base_url := u "https://emex.ru";
                    session := {| headers := browser_headers |};
                    username := dict_get d "username";
                    password := dict_get d "password";
                    is_authenticated := false |}).
      destruct (authenticate_outcome E np) as (b & ta & Hrun & _ & _).
      exists {[ "authenticated" := VBool b;
                "message" := VStr (if b then u "Успешная аутентификация"
                                   else u "Ошибка аутентификации") ]},
        200, (if b then set_authenticated np else np), (SessionOpened :: ta).
      split.
      * unfold authenticate_endpoint, try_except, bind at 1, answer.
        unfold bind at 1, data_get, ret. unfold bind at 1.
        unfold bind at 1, lift, __init__, bind at 1, emit, ret.
        rewrite Hu, Hp. cbn [negb orb]. cbv iota. fold np.
        unfold bind, set_local. rewrite Hrun. simpl.
        by rewrite app_nil_r.
      * split; [auto |]. split; [done |]. intros _. exists d.
        repeat (split; [done |]). split; [by destruct b |]. split; [by destruct b |].
        split; [by destruct b | by eexists].
    + eexists _, 400, parser, []. split.
      * unfold authenticate_endpoint, try_except, bind, answer, data_get, ret.
        by rewrite Hu, Hp.
      * split; [auto |]. split; [done | done].
    + eexists _, 400, parser, []. split.
      * unfold authenticate_endpoint, try_except, bind, answer, data_get, ret.
        by rewrite Hu.
      * split; [auto |]. split; [done | done].
  - eexists _, 500, parser, []. split; [reflexivity |].
    split; [auto |]. split; [done | done].
  - eexists _, 500, parser, []. split; [reflexivity |].
    split; [auto |]. split; [done | done].
Qed.

(** A login the shop accepts, and one it refuses: in both the module-level
    parser is replaced. *)
Example login_accepted :
  authenticate_endpoint
    (Fixture.env (Fixture.answering (Fixture.page_response 200 "blank")))
    (Return (BObject Scenario.credentials)) Fixture.a_parser
  = (Return ({[ "authenticated" := VBool true;
                "message" := VStr (u "Успешная аутентификация") ]}, 200),
     {| base_url := u "https://emex.ru";
        session := {| headers := browser_headers |};
        username := VStr (u "user"); password := VStr (u "secret");
        is_authenticated := true |},
     [ SessionOpened;
       Called (SessionPost {| headers := browser_headers |}
                 (u "https://emex.ru/auth/login")
                 [("login", VStr (u "user")); ("password", VStr (u "secret"))] 30);
       Logged INFO (u "Успешная аутентификация на emex.ru") ]).
Proof. reflexivity. Qed.

Example login_refused :
  authenticate_endpoint
    (Fixture.env (Fixture.answering (Fixture.page_response 403 "blank")))
    (Return (BObject Scenario.credentials)) Fixture.a_parser
  = (Return ({[ "authenticated" := VBool false;
                "message" := VStr (u "Ошибка аутентификации") ]}, 200),
     {| base_url := u "https://emex.ru";
        session := {| headers := browser_headers |};
        username := VStr (u "user"); password := VStr (u "secret");
        is_authenticated := false |},
     [ SessionOpened;
       Called (SessionPost {| headers := browser_headers |}
                 (u "https://emex.ru/auth/login")
                 [("login", VStr (u "user")); ("password", VStr (u "secret"))] 30);
       Logged ERROR (u "Ошибка аутентификации: 403") ]).
Proof. reflexivity. Qed.


Example lower_case_vin_is_decoded_in_upper_case :
  decode_vin_endpoint (Fixture.env Fixture.offline) Scenario.upper_ascii
    (u "short") Fixture.a_parser
  = (Return ({[ "error" := VStr MSG_VIN_FORMAT; "vin" := VStr (u "SHORT") ]}, 200),
     Fixture.a_parser, []).
Proof. reflexivity. Qed.

(** X17. The two extractions stay inside the process: whatever the page and
    whatever the library raises, [_parse_parts_from_html] and
    [_parse_part_details] emit only consultations of the HTML library and
    log lines, never an HTTP call and never a new session. *)
Theorem extraction_makes_no_call (E : Env) (soup : Node E) (article : pystr) :
  Forall (λ ev, local_event ev = true) (trace (_parse_parts_from_html E soup))
  ∧ calls_of (trace (_parse_parts_from_html E soup)) = []
  ∧ Forall (λ ev, local_event ev = true) (trace (_parse_part_details E soup article))
  ∧ calls_of (trace (_parse_part_details E soup article)) = [].
Proof.
  pose proof (emits_trace _ _ (parse_parts_local E soup)) as Hparts.
  pose proof (emits_trace _ _ (parse_details_local E soup article)) as Hdetails.
  split; [done |]. split; [by apply calls_of_local |].
  split; [done |]. by apply calls_of_local.
Qed.
